(** * insight-weave-cms: session lifecycle and content-creation page

    A shallow embedding of the client code of the repository:

    - [AuthContext] (the auth provider: [refreshUser], [login], [register],
      [logout]) over the browser cookie jar and the provider's React state;
    - [CreateContent] (the content-creation page: [analyzeContent], the AI
      analysis button, the two submit buttons and [createContentMutation]).

    Asynchronous functions are run to completion: an [await]ed request is
    answered by a [Reply] given to the operation, which is looked at only
    when the request is really sent.  Every externally visible effect
    (cookie writes, state setters, requests, console output, toasts) is
    appended to a trace, so that ordering and "no request was made" can be
    stated.

    Conventions: a React state setter takes effect at once (the state
    after a handler is the last value set); a response's status flag is
    its truthiness; a string is its sequence of code units; a [File] is
    its name.  [logout] does not await its request: the handler that
    runs when the request settles is a definition of its own
    ([logout_settled]).  [mutate] is run together with its callbacks. *)

From Stdlib Require Import Ascii.
From stdpp Require Import base strings gmap list pretty.

Set Default Proof Using "Type".

(** ** JavaScript values shared by both components *)

(** What a rejected promise or a [throw] carries. *)
Inductive JsError : Type :=
  | AxiosError (responseMessage : option string)
  | TypeError (message : string).

(** [error.response?.data?.message] *)
Definition response_message (e : JsError) : option string :=
  match e with
  | AxiosError m => m
  | TypeError _ => None
  end.

(** [response.data] of the REST collaborator: [{status, data}]. *)
Record ApiBody (A : Type) : Type := mkBody { status : bool; data : A }.
Arguments mkBody {A} _ _.
Arguments status {A} _.
Arguments data {A} _.

(** How an awaited request settles.  [Resolve None] is a response whose
    [data] is [null]: reading [response.data.status] then throws. *)
Inductive Reply (A : Type) : Type :=
  | Resolve (body : option (ApiBody A))
  | Reject (e : JsError).
Arguments Resolve {A} _.
Arguments Reject {A} _.

Inductive Method : Type := GET | POST.

(** A multipart field value: text or a file (by name). *)
Inductive FormDataEntryValue : Type :=
  | Text (s : string)
  | Blob (fileName : string).

(** [FormData] keeps insertion order and duplicates. *)
Abbreviation FormData := (list (string * FormDataEntryValue)).

Inductive Payload : Type :=
  | NoPayload
  | Json (fields : list (string * string))
  | Multipart (fd : FormData).

Record Request : Type := mkRequest
  { method : Method; path : string; payload : Payload }.

Inductive Role : Type := reader | creator | admin.

Record User : Type := mkUser
  { _id : string;
    name : string;
    email : string;
    role : Role;
    profileImage : option string;
    bio : option string;
    isVerified : bool }.

(** [{ wordCount, readingTime, suggestedCategory, autoTags }] *)
Record Analysis : Type := mkAnalysis
  { wordCount : nat;
    readingTime : nat;
    suggestedCategory : string;
    autoTags : list string }.

(** A cookie as js-cookie writes it: the value and the [expires]
    attribute in days ([None]: session cookie). *)
Record Cookie : Type := mkCookie
  { value : string; expires : option nat }.

(** Effects in the order the code performs them. *)
Inductive Event : Type :=
  | EvCookiesSet (key val : string) (exp : option nat)
  | EvCookiesRemove (key : string)
  | EvSetUser (u : option User)
  | EvSetIsLoading (b : bool)
  | EvSetAiAnalysis (a : Analysis)
  | EvSetIsAnalyzing (b : bool)
  | EvSetValue (field val : string)
  | EvRequest (r : Request)
  | EvConsoleError (msg : string) (e : JsError)
  | EvToast (title description : string)
  | EvNavigate (to : string).

(** The requests of a trace, oldest first. *)
Fixpoint requests (t : list Event) : list Request :=
  match t with
  | [] => []
  | EvRequest r :: t' => r :: requests t'
  | _ :: t' => requests t'
  end.

(** ** The browser and a component's state *)

Record World (S : Type) : Type := mkWorld
  { cookies : gmap string Cookie;
    trace : list Event;
    state : S }.
Arguments mkWorld {S} _ _ _.
Arguments cookies {S} _.
Arguments trace {S} _.
Arguments state {S} _.

(** ** A state-and-exception monad for handler bodies *)

Inductive Completion (A : Type) : Type :=
  | Normal (a : A)
  | Throw (e : JsError).
Arguments Normal {A} _.
Arguments Throw {A} _.

Definition M (S A : Type) : Type := World S -> Completion A * World S.

Definition ret {S A} (a : A) : M S A := fun w => (Normal a, w).

Definition throw {S A} (e : JsError) : M S A := fun w => (Throw e, w).

Definition bind {S A B} (m : M S A) (k : A -> M S B) : M S B :=
  fun w =>
    match m w with
    | (Normal a, w') => k a w'
    | (Throw e, w') => (Throw e, w')
    end.

#[global] Instance M_ret {S} : MRet (M S) := @ret S.
#[global] Instance M_bind {S} : MBind (M S) := fun A B k m => bind m k.

(** [try { body } catch (error) { handler }] *)
Definition try_catch {S A} (body : M S A) (handler : JsError -> M S A) : M S A :=
  fun w =>
    match body w with
    | (Normal a, w') => (Normal a, w')
    | (Throw e, w') => handler e w'
    end.

(** [try { body } finally { final }]: [final] runs on every exit of
    [body], also after a [return] inside it; the completion of [body]
    stands unless [final] throws. *)
Definition try_finally {S A} (body : M S A) (final : M S unit) : M S A :=
  fun w =>
    match body w with
    | (c, w') =>
        match final w' with
        | (Normal _, w'') => (c, w'')
        | (Throw e, w'') => (Throw e, w'')
        end
    end.

Definition emit {S} (ev : Event) : M S unit :=
  fun w => (Normal tt, mkWorld (cookies w) (trace w ++ [ev]) (state w)).

Definition modify {S} (f : S -> S) : M S unit :=
  fun w => (Normal tt, mkWorld (cookies w) (trace w) (f (state w))).

Definition get_state {S} : M S S := fun w => (Normal (state w), w).

(** *** js-cookie *)

(** [Cookies.get(key)]: the value, or [undefined]. *)
Definition Cookies_get {S} (key : string) : M S (option string) :=
  fun w => (Normal (value <$> cookies w !! key), w).

(** [Cookies.set(key, val, { expires })] *)
Definition Cookies_set {S} (key val : string) (exp : option nat) : M S unit :=
  fun w =>
    (Normal tt,
     mkWorld (<[key := mkCookie val exp]> (cookies w))
             (trace w ++ [EvCookiesSet key val exp]) (state w)).

(** [Cookies.remove(key)] *)
Definition Cookies_remove {S} (key : string) : M S unit :=
  fun w =>
    (Normal tt,
     mkWorld (delete key (cookies w)) (trace w ++ [EvCookiesRemove key]) (state w)).

(** *** The HTTP client *)

(** [await api.get(path)] / [await api.post(path, payload)]: the request
    is sent, then the promise settles as [reply] says. *)
Definition settle {S A} (reply : Reply A) : M S (option (ApiBody A)) :=
  match reply with
  | Resolve body => ret body
  | Reject e => throw e
  end.

Definition api_send {S A} (r : Request) (reply : Reply A)
  : M S (option (ApiBody A)) :=
  emit (EvRequest r) ;; settle reply.

Definition api_get {S A} (p : string) (reply : Reply A) :=
  @api_send S A (mkRequest GET p NoPayload) reply.

Definition api_post {S A} (p : string) (pl : Payload) (reply : Reply A) :=
  @api_send S A (mkRequest POST p pl) reply.

(** Reading a property of [response.data]: a [TypeError] when it is
    [null] or [undefined]. *)
Definition response_data {S A} (body : option (ApiBody A)) : M S (ApiBody A) :=
  match body with
  | Some b => ret b
  | None => throw (TypeError "Cannot read properties of null")
  end.

(** The error that reaches the [catch] block (or the caller) when the
    awaited request settles as [reply] and [response.data] is read. *)
Definition caught {A} (reply : Reply A) : option JsError :=
  match reply with
  | Reject e => Some e
  | Resolve None => Some (TypeError "Cannot read properties of null")
  | Resolve (Some _) => None
  end.

Definition console_error {S} (msg : string) (e : JsError) : M S unit :=
  emit (EvConsoleError msg e).

(** JavaScript truthiness of a possibly [undefined] string. *)
Definition truthy (s : option string) : bool :=
  match s with
  | Some (String _ _) => true
  | Some EmptyString => false
  | None => false
  end.

(** ** The auth context provider *)

Module AuthContext.

(** [useState<User | null>(null)] and [useState(true)]. *)
Record AuthState : Type := mkAuth
  { user : option User; isLoading : bool }.

(** [response.data.data] of [/auth/login]. *)
Record LoginData : Type := mkLoginData
  { accessToken : string; userData : User }.

Abbreviation Auth := (M AuthState).

Definition setUser (u : option User) : Auth unit :=
  emit (EvSetUser u) ;;
  modify (fun s => mkAuth u (isLoading s)).

Definition setIsLoading (b : bool) : Auth unit :=
  emit (EvSetIsLoading b) ;;
  modify (fun s => mkAuth (user s) b).

(** The provider as first rendered, over whatever cookies the browser
    kept. *)
Definition mount (jar : gmap string Cookie) : World AuthState :=
  mkWorld jar [] (mkAuth None true).

Definition refreshUser (reply : Reply User) : Auth unit :=
  try_finally
    (try_catch
       (token ← Cookies_get "accessToken";
        if negb (truthy token) then
          setIsLoading false
        else
          response ← api_get "/users/me" reply;
          d ← response_data response;
          if status d then setUser (Some (data d)) else mret tt)
       (fun error =>
          console_error "Failed to fetch user:" error ;;
          Cookies_remove "accessToken" ;;
          Cookies_remove "refreshToken"))
    (setIsLoading false).

Definition login (email password : string) (reply : Reply LoginData)
  : Auth unit :=
  response ← api_post "/auth/login"
               (Json [("email", email); ("password", password)]) reply;
  d ← response_data response;
  if status d then
    Cookies_set "accessToken" (accessToken (data d)) (Some 7) ;;
    setUser (Some (userData (data d)))
  else mret tt.

Definition register (name email password : string) (reply : Reply User)
  : Auth unit :=
  response ← api_post "/auth/register"
               (Json [("name", name); ("email", email); ("password", password)])
               reply;
  d ← response_data response;
  if status d then setUser (Some (data d)) else mret tt.

(** [logout] is synchronous: the request is sent and its promise is not
    awaited. *)
Definition logout : Auth unit :=
  Cookies_remove "accessToken" ;;
  Cookies_remove "refreshToken" ;;
  setUser None ;;
  emit (EvRequest (mkRequest POST "/auth/logout" NoPayload)).

(** [.catch(() => {})] on the logout request, run when (if ever) the
    request settles as [reply]. *)
Definition logout_settled (reply : Reply unit) : Auth unit :=
  try_catch (settle reply ;; mret tt) (fun _ => mret tt).

(** *** Sessions: sequences of the four operations *)

Inductive Op : Type :=
  | OpRefreshUser (reply : Reply User)
  | OpLogin (email password : string) (reply : Reply LoginData)
  | OpRegister (name email password : string) (reply : Reply User)
  | OpLogout (reply : Reply unit).

Definition run_op (w : World AuthState) (op : Op) : World AuthState :=
  match op with
  | OpRefreshUser reply => (refreshUser reply w).2
  | OpLogin e p reply => (login e p reply w).2
  | OpRegister n e p reply => (register n e p reply w).2
  | OpLogout reply => (logout_settled reply (logout w).2).2
  end.

Definition run_ops (ops : list Op) (w : World AuthState) : World AuthState :=
  foldl run_op w ops.


Definition token_present (w : World AuthState) : Prop :=
  truthy (value <$> cookies w !! "accessToken") = true.

(** "Absence of the access token forces User to absent." *)
Definition session_invariant (w : World AuthState) : Prop :=
  cookies w !! "accessToken" = None → user (state w) = None.


Definition is_absent {A} (o : option A) : bool :=
  match o with
  | None => true
  | Some _ => false
  end.

(** The two steps that set or keep a User without an access token:
    a [register] that succeeds while no access token is persisted, and a
    [refreshUser] whose request throws while a User is present. *)
Definition leaves_user_without_token (w : World AuthState) (op : Op) : bool :=
  match op with
  | OpRegister _ _ _ (Resolve (Some b)) =>
      status b && is_absent (cookies w !! "accessToken")
  | OpRefreshUser (Reject _) | OpRefreshUser (Resolve None) =>
      truthy (value <$> cookies w !! "accessToken")
      && negb (is_absent (user (state w)))
  | _ => false
  end.

(** A session none of whose steps is one of those two. *)
Fixpoint tame (ops : list Op) (w : World AuthState) : bool :=
  match ops with
  | [] => true
  | op :: ops' =>
      negb (leaves_user_without_token w op) && tame ops' (run_op w op)
  end.

(** Fixtures. *)
Definition alice : User :=
  mkUser "u1" "Alice" "a@b.com" reader None None true.

Definition both_cookies : gmap string Cookie :=
  <["accessToken" := mkCookie "t0" (Some 7)]>
    (<["refreshToken" := mkCookie "r0" None]> ∅).

(** *** The provider's mount effect and where a User comes from *)

(** [useEffect(() => { refreshUser(); }, [])]: the provider as first
    rendered, then its one mount-time [refreshUser]. *)
Definition AuthProvider (jar : gmap string Cookie) (reply : Reply User)
  : World AuthState :=
  (refreshUser reply (mount jar)).2.

(** The User an operation's reply hands over, if it hands one over: the
    answer has a truthy status flag. *)
Definition supplies (op : Op) : option User :=
  match op with
  | OpRefreshUser (Resolve (Some b)) | OpRegister _ _ _ (Resolve (Some b)) =>
      if status b then Some (data b) else None
  | OpLogin _ _ (Resolve (Some b)) =>
      if status b then Some (userData (data b)) else None
  | _ => None
  end.

(** The access token an operation's reply hands over: only [login]
    receives one. *)
Definition issues (op : Op) : option string :=
  match op with
  | OpLogin _ _ (Resolve (Some b)) =>
      if status b then Some (accessToken (data b)) else None
  | _ => None
  end.

(** *** Operations suspended at their [await]

    An [async] operation runs up to its [await], sends its request and
    is suspended; the rest of its body runs when the request settles.
    In between, other calls and other settlements can run. *)

(** [refreshUser] up to its [await]: [true] when the request was sent
    and the body is suspended, [false] when it returned for want of a
    token (the [finally] block included). *)
Definition refreshUser_called : Auth bool :=
  token ← Cookies_get "accessToken";
  if negb (truthy token) then
    try_finally (setIsLoading false) (setIsLoading false) ;;
    mret false
  else
    emit (EvRequest (mkRequest GET "/users/me" NoPayload)) ;;
    mret true.

(** The rest of [refreshUser], run when its request settles as
    [reply]. *)
Definition refreshUser_resumed (reply : Reply User) : Auth unit :=
  try_finally
    (try_catch
       (response ← settle reply;
        d ← response_data response;
        if status d then setUser (Some (data d)) else mret tt)
       (fun error =>
          console_error "Failed to fetch user:" error ;;
          Cookies_remove "accessToken" ;;
          Cookies_remove "refreshToken"))
    (setIsLoading false).

Definition login_called (email password : string) : Auth unit :=
  emit (EvRequest (mkRequest POST "/auth/login"
                     (Json [("email", email); ("password", password)]))).

Definition login_resumed (reply : Reply LoginData) : Auth unit :=
  response ← settle reply;
  d ← response_data response;
  if status d then
    Cookies_set "accessToken" (accessToken (data d)) (Some 7) ;;
    setUser (Some (userData (data d)))
  else mret tt.

Definition register_called (name email password : string) : Auth unit :=
  emit (EvRequest (mkRequest POST "/auth/register"
                     (Json [("name", name); ("email", email);
                            ("password", password)]))).

Definition register_resumed (reply : Reply User) : Auth unit :=
  response ← settle reply;
  d ← response_data response;
  if status d then setUser (Some (data d)) else mret tt.

(** Which operation a request in flight belongs to. *)
Inductive Suspended : Type :=
  | AwaitingRefreshUser
  | AwaitingLogin
  | AwaitingRegister
  | AwaitingLogout.

(** The provider together with its requests in flight, oldest first. *)
Record Session : Type := mkSession
  { world : World AuthState; suspended : list Suspended }.

(** What can happen next: one of the four operations is called, or the
    [i]-th request in flight settles.  A completion that reaches the
    caller ([login], [register]) is the caller's business and is
    dropped here. *)
Inductive Action : Type :=
  | CallRefreshUser
  | CallLogin (email password : string)
  | CallRegister (name email password : string)
  | CallLogout
  | SettleRefreshUser (i : nat) (reply : Reply User)
  | SettleLogin (i : nat) (reply : Reply LoginData)
  | SettleRegister (i : nat) (reply : Reply User)
  | SettleLogout (i : nat) (reply : Reply unit).

(** One action; [None] when the action settles a request that is not in
    flight. *)
Definition act (s : Session) (a : Action) : option Session :=
  match a with
  | CallRefreshUser =>
      match refreshUser_called (world s) with
      | (Normal true, w') => Some (mkSession w' (suspended s ++ [AwaitingRefreshUser]))
      | (_, w') => Some (mkSession w' (suspended s))
      end
  | CallLogin e p =>
      Some (mkSession (login_called e p (world s)).2
              (suspended s ++ [AwaitingLogin]))
  | CallRegister n e p =>
      Some (mkSession (register_called n e p (world s)).2
              (suspended s ++ [AwaitingRegister]))
  | CallLogout =>
      Some (mkSession (logout (world s)).2 (suspended s ++ [AwaitingLogout]))
  | SettleRefreshUser i reply =>
      match suspended s !! i with
      | Some AwaitingRefreshUser =>
          Some (mkSession (refreshUser_resumed reply (world s)).2
                  (delete i (suspended s)))
      | _ => None
      end
  | SettleLogin i reply =>
      match suspended s !! i with
      | Some AwaitingLogin =>
          Some (mkSession (login_resumed reply (world s)).2
                  (delete i (suspended s)))
      | _ => None
      end
  | SettleRegister i reply =>
      match suspended s !! i with
      | Some AwaitingRegister =>
          Some (mkSession (register_resumed reply (world s)).2
                  (delete i (suspended s)))
      | _ => None
      end
  | SettleLogout i reply =>
      match suspended s !! i with
      | Some AwaitingLogout =>
          Some (mkSession (logout_settled reply (world s)).2
                  (delete i (suspended s)))
      | _ => None
      end
  end.

Fixpoint acts (l : list Action) (s : Session) : option Session :=
  match l with
  | [] => Some s
  | a :: l' =>
      match act s a with
      | Some s' => acts l' s'
      | None => None
      end
  end.

(** The mounted provider, nothing in flight. *)
Definition mounted (jar : gmap string Cookie) : Session :=
  mkSession (mount jar) [].

(** The three settlements that set or keep a User without an access
    token: a [register] or a [refreshUser] answered with a truthy status
    flag while no access token is persisted (for [refreshUser]: the
    cookie was removed while the request was in flight), and a
    [refreshUser] whose request throws while a User is present. *)
Definition settles_user_without_token (s : Session) (a : Action) : bool :=
  match a with
  | SettleRegister _ (Resolve (Some b)) | SettleRefreshUser _ (Resolve (Some b)) =>
      status b && is_absent (cookies (world s) !! "accessToken")
  | SettleRefreshUser _ _ => negb (is_absent (user (state (world s))))
  | _ => false
  end.

(** A run none of whose actions is one of those three. *)
Fixpoint calm (l : list Action) (s : Session) : bool :=
  match l with
  | [] => true
  | a :: l' =>
      negb (settles_user_without_token s a)
      && match act s a with
         | Some s' => calm l' s'
         | None => true
         end
  end.

(** An operation run without overlap: called, then settled before
    anything else happens. *)
Definition schedule (s : Session) (op : Op) : list Action :=
  match op with
  | OpRefreshUser reply =>
      if truthy (value <$> cookies (world s) !! "accessToken")
      then [CallRefreshUser; SettleRefreshUser (length (suspended s)) reply]
      else [CallRefreshUser]
  | OpLogin e p reply =>
      [CallLogin e p; SettleLogin (length (suspended s)) reply]
  | OpRegister n e p reply =>
      [CallRegister n e p; SettleRegister (length (suspended s)) reply]
  | OpLogout reply =>
      [CallLogout; SettleLogout (length (suspended s)) reply]
  end.

End AuthContext.

(** ** The content-creation page *)

Module CreateContent.

Inductive Status : Type := draft | published.

Definition status_string (st : Status) : string :=
  match st with
  | draft => "draft"
  | published => "published"
  end.

(** The values react-hook-form holds for the form ([watch] reads them);
    a field never written is [undefined].  [defaultValues] gives
    [status]. *)
Record FormValues : Type := mkValues
  { watchedTitle : option string;
    watchedBody : option string;
    watchedTags : option (list string);
    watchedFeaturedImage : option string;
    watchedStatus : Status }.

Record PageState : Type := mkPage
  { aiAnalysis : option Analysis;
    isAnalyzing : bool;
    values : FormValues;
    isSubmitting : bool }.

Abbreviation Page := (M PageState).

(** The page as first rendered. *)
Definition initial_page : PageState :=
  mkPage None false (mkValues None None None None draft) false.

Definition setAiAnalysis (a : Analysis) : Page unit :=
  emit (EvSetAiAnalysis a) ;;
  modify (fun s => mkPage (Some a) (isAnalyzing s) (values s) (isSubmitting s)).

Definition setIsAnalyzing (b : bool) : Page unit :=
  emit (EvSetIsAnalyzing b) ;;
  modify (fun s => mkPage (aiAnalysis s) b (values s) (isSubmitting s)).

Definition toast (title description : string) : Page unit :=
  emit (EvToast title description).

Definition navigate (to : string) : Page unit :=
  emit (EvNavigate to).

(** [!watchedBody || watchedBody.length < 10]; a string is its sequence
    of code units, and [length] counts them. *)
Definition body_too_short (watched : option string) : bool :=
  match watched with
  | Some b => negb (truthy watched) || (String.length b <? 10)
  | None => true
  end.

Definition analyzeContent (reply : Reply Analysis) : Page unit :=
  s ← get_state;
  match watchedBody (values s) with
  | Some b =>
      if body_too_short (Some b) then mret tt
      else
        setIsAnalyzing true ;;
        try_finally
          (try_catch
             (response ← api_post "/content/analyze" (Json [("body", b)]) reply;
              d ← response_data response;
              if status d then
                setAiAnalysis (data d) ;;
                toast "AI Analysis Complete"
                      "Content analyzed successfully with AI insights."
              else mret tt)
             (fun error => console_error "Analysis failed:" error))
          (setIsAnalyzing false)
  | None => mret tt
  end.

(** [disabled={isAnalyzing || !watchedBody}] on the analysis button. *)
Definition analyze_button_disabled (s : PageState) : bool :=
  isAnalyzing s || negb (truthy (watchedBody (values s))).

(** A click on the analysis button: a disabled button fires no
    [onClick]. *)
Definition click_analyze (reply : Reply Analysis) : Page unit :=
  s ← get_state;
  if analyze_button_disabled s then mret tt else analyzeContent reply.

(** *** Submission *)

(** [CreateContentFormData]: what the schema hands to [onSubmit]
    ([data.title], [data.status], ...). *)
Module Data.
Record CreateContentFormData : Type := mkData
  { title : string;
    body : string;
    tags : option (list string);
    featuredImage : option string;
    status : Status }.
End Data.

Abbreviation CreateContentFormData := Data.CreateContentFormData.

(** The form values with [status] overwritten. *)
Definition with_status (v : FormValues) (st : Status) : FormValues :=
  mkValues (watchedTitle v) (watchedBody v) (watchedTags v)
           (watchedFeaturedImage v) st.

(** [setValue('status', st)] *)
Definition setValue_status (st : Status) : Page unit :=
  emit (EvSetValue "status" (status_string st)) ;;
  modify (fun s =>
    mkPage (aiAnalysis s) (isAnalyzing s) (with_status (values s) st)
           (isSubmitting s)).

(** The multipart payload [mutationFn] builds, in append order. *)
Definition build_form_data (formData : CreateContentFormData) : FormData :=
  [("title", Text (Data.title formData));
   ("body", Text (Data.body formData));
   ("status", Text (status_string (Data.status formData)))]
  ++ match Data.tags formData with
     | Some ts => imap (fun index tag => ("tags[" +:+ pretty index +:+ "]", Text tag)) ts
     | None => []
     end
  ++ match Data.featuredImage formData with
     | Some file => [("featuredImage", Blob file)]
     | None => []
     end.

(** [FormData.get(key)]: the first entry of that name. *)
Fixpoint FormData_get (key : string) (fd : FormData) : option FormDataEntryValue :=
  match fd with
  | [] => None
  | (k, v) :: fd' => if String.eqb k key then Some v else FormData_get key fd'
  end.

Definition mutationFn {A} (formData : CreateContentFormData) (reply : Reply A)
  : Page (option (ApiBody A)) :=
  api_post "/content" (Multipart (build_form_data formData)) reply.

Definition onSuccess : Page unit :=
  toast "Content created!" "Your content has been created successfully." ;;
  navigate "/".

Definition onError (error : JsError) : Page unit :=
  toast "Failed to create content"
        (if truthy (response_message error)
         then default "Something went wrong." (response_message error)
         else "Something went wrong.").

(** [createContentMutation.mutate(data)]: [onSuccess] when [mutationFn]
    resolves, [onError] when it rejects. *)
Definition mutate {A} (formData : CreateContentFormData) (reply : Reply A)
  : Page unit :=
  fun w =>
    match mutationFn formData reply w with
    | (Normal _, w') => onSuccess w'
    | (Throw e, w') => onError e w'
    end.

Inductive SubmitButton : Type := Publish | SaveAsDraft.

(** The status each button's [onClick] writes. *)
Definition target_status (b : SubmitButton) : Status :=
  match b with
  | Publish => published
  | SaveAsDraft => draft
  end.

Section WithSchema.

(** [zodResolver(createContentSchema)]: the schema lives in
    [@/lib/schemas]; it turns the form values into the data handed to
    [onSubmit], or refuses them. *)
Variable createContentSchema : FormValues → option CreateContentFormData.

Definition onSubmit {A} (reply : Reply A) (formData : CreateContentFormData)
  : Page unit :=
  mutate formData reply.

(** [handleSubmit(onSubmit)]: [onSubmit] runs only on values the schema
    accepts. *)
Definition handleSubmit (onValid : CreateContentFormData → Page unit) : Page unit :=
  s ← get_state;
  match createContentSchema (values s) with
  | Some formData => onValid formData
  | None => mret tt
  end.

(** A click on one of the two submit buttons ([disabled={isSubmitting}]):
    [onClick] first, then the form's submit event. *)
Definition click_submit {A} (b : SubmitButton) (reply : Reply A) : Page unit :=
  s ← get_state;
  if isSubmitting s then mret tt
  else
    setValue_status (target_status b) ;;
    handleSubmit (onSubmit reply).

End WithSchema.

(** What the analysis button is said to do with an answer [d]: one
    request, and the panel showing [d]'s data. *)
Definition panel_populated (w : World PageState) (d : ApiBody Analysis) : Prop :=
  let w' := (click_analyze (Resolve (Some d)) w).2 in
  requests (trace w')
  = requests (trace w)
    ++ [mkRequest POST "/content/analyze"
          (Json [("body", default EmptyString (watchedBody (values (state w))))])]
  ∧ aiAnalysis (state w') = Some (data d).

(** Fixtures. *)
Definition sample_analysis : Analysis :=
  mkAnalysis 2 1 "technology" ["ai"].

(** The freshly rendered page after [b] was typed into the body. *)
Definition typed (b : string) : World PageState :=
  mkWorld ∅ []
    (mkPage (aiAnalysis initial_page) (isAnalyzing initial_page)
       (mkValues None (Some b) None None draft) (isSubmitting initial_page)).

(** A schema asking for a title and a body. *)
Definition sample_schema (v : FormValues) : option CreateContentFormData :=
  match watchedTitle v, watchedBody v with
  | Some t, Some b =>
      if truthy (Some t) && truthy (Some b)
      then Some (Data.mkData t b (watchedTags v) (watchedFeaturedImage v) (watchedStatus v))
      else None
  | _, _ => None
  end.

Definition filled : World PageState :=
  mkWorld ∅ []
    (mkPage None false
       (mkValues (Some "Hello") (Some "A first post.") (Some ["a"; "b"]) None draft)
       false).

(** *** The tags and image inputs *)

(** JavaScript white space and line terminators, among the code units a
    [string] holds: tab, LF, VT, FF, CR, space and U+00A0. *)
Definition is_whitespace (c : Ascii.ascii) : bool :=
  match Ascii.N_of_ascii c with
  | 9 | 10 | 11 | 12 | 13 | 32 | 160 => true
  | _ => false
  end%N.

(** [s.split(sep)] for a one-character separator: the pieces between
    the separators, empty pieces included; never the empty array. *)
Fixpoint split (sep : Ascii.ascii) (s : string) : list string :=
  match s with
  | EmptyString => [EmptyString]
  | String c s' =>
      if Ascii.eqb c sep then EmptyString :: split sep s'
      else
        match split sep s' with
        | piece :: pieces => String c piece :: pieces
        | [] => [String c EmptyString]
        end
  end.

Fixpoint trimStart (s : string) : string :=
  match s with
  | EmptyString => EmptyString
  | String c s' => if is_whitespace c then trimStart s' else s
  end.

Fixpoint trimEnd (s : string) : string :=
  match s with
  | EmptyString => EmptyString
  | String c s' =>
      match trimEnd s' with
      | EmptyString => if is_whitespace c then EmptyString else String c EmptyString
      | t => String c t
      end
  end.

(** [s.trim()] *)
Definition trim (s : string) : string := trimEnd (trimStart s).

(** [value.split(',').map(tag => tag.trim()).filter(Boolean)] *)
Definition parse_tags (input : string) : list string :=
  filter (λ tag, truthy (Some tag)) (trim <$> split ","%char input).

(** [setValue('tags', tags)]; the event shows the array as JavaScript
    prints it, joined by commas. *)
Definition setValue_tags (ts : list string) : Page unit :=
  emit (EvSetValue "tags" (String.concat "," ts)) ;;
  modify (fun s =>
    mkPage (aiAnalysis s) (isAnalyzing s)
           (mkValues (watchedTitle (values s)) (watchedBody (values s)) (Some ts)
                     (watchedFeaturedImage (values s)) (watchedStatus (values s)))
           (isSubmitting s)).

(** [onChange] of the tags input. *)
Definition onChange_tags (input : string) : Page unit :=
  setValue_tags (parse_tags input).

(** [setValue('featuredImage', file)] *)
Definition setValue_featuredImage (file : string) : Page unit :=
  emit (EvSetValue "featuredImage" file) ;;
  modify (fun s =>
    mkPage (aiAnalysis s) (isAnalyzing s)
           (mkValues (watchedTitle (values s)) (watchedBody (values s))
                     (watchedTags (values s)) (Some file) (watchedStatus (values s)))
           (isSubmitting s)).

(** [onChange] of the file input: [e.target.files?.[0]], set only when
    there is one. *)
Definition onChange_featuredImage (files : option (list string)) : Page unit :=
  match files with
  | Some (file :: _) => setValue_featuredImage file
  | _ => mret tt
  end.

(** [c] occurs in [s]. *)
Fixpoint occurs (c : Ascii.ascii) (s : string) : bool :=
  match s with
  | EmptyString => false
  | String c' s' => Ascii.eqb c' c || occurs c s'
  end.

(** A tag as [parse_tags] yields them: not empty, without a comma, and
    without white space at either end. *)
Definition clean_tag (tag : string) : Prop :=
  tag ≠ EmptyString ∧ occurs ","%char tag = false ∧ trim tag = tag.

(** The first and the last code unit of a string, if it has any. *)
Definition first_unit (s : string) : option Ascii.ascii :=
  match s with
  | EmptyString => None
  | String c _ => Some c
  end.

Fixpoint last_unit (s : string) : option Ascii.ascii :=
  match s with
  | EmptyString => None
  | String c EmptyString => Some c
  | String _ s' => last_unit s'
  end.

(** Neither the first nor the last code unit of [s] is white space. *)
Definition no_space_at_ends (s : string) : Prop :=
  (∀ c, first_unit s = Some c → is_whitespace c = false)
  ∧ (∀ c, last_unit s = Some c → is_whitespace c = false).

(** Every code unit of [s] is white space or a comma. *)
Fixpoint blank (s : string) : bool :=
  match s with
  | EmptyString => true
  | String c s' => (is_whitespace c || Ascii.eqb c ","%char) && blank s'
  end.

(** The field name of the tag at [index]: [`tags[${index}]`]. *)
Definition tag_key (index : nat) : string :=
  "tags[" +:+ pretty index +:+ "]".

(** What the error toast of the submission shows:
    [error.response?.data?.message || "Something went wrong."] *)
Definition error_description (e : JsError) : string :=
  match response_message e with
  | Some (String c m) => String c m
  | _ => "Something went wrong."
  end.

End CreateContent.

(** ** The profile page *)

Module Profile.

Import AuthContext.

(** [UpdateProfileFormData]: [{ name, bio }]. *)
Module Form.
Record UpdateProfileFormData : Type := mkUpdate
  { name : string; bio : string }.
End Form.

Abbreviation UpdateProfileFormData := Form.UpdateProfileFormData.

(** What the page does: its own [api.put('/users/me', data)], and the
    effects of the auth context and of the toasts, as above. *)
Inductive ProfileEvent : Type :=
  | PutUsersMe (formData : UpdateProfileFormData)
  | Shared (ev : Event).

(** The page shares the cookie jar and the auth state with the
    provider; [isSubmitting] is its form's flag. *)
Record PageWorld : Type := mkPageWorld
  { jar : gmap string Cookie;
    log : list ProfileEvent;
    auth : AuthState;
    isSubmitting : bool }.

Definition record (ev : ProfileEvent) (pw : PageWorld) : PageWorld :=
  mkPageWorld (jar pw) (log pw ++ [ev]) (auth pw) (isSubmitting pw).

(** Runs an operation of the auth context ([useAuth]) from the page: on
    the shared jar and auth state, its effects appended to the page's
    log; the completion is not awaited. *)
Definition in_context {A} (m : M AuthState A) (pw : PageWorld) : PageWorld :=
  mkPageWorld
    (cookies (m (mkWorld (jar pw) [] (auth pw))).2)
    (log pw ++ (Shared <$> trace (m (mkWorld (jar pw) [] (auth pw))).2))
    (state (m (mkWorld (jar pw) [] (auth pw))).2)
    (isSubmitting pw).

Definition toast (title description : string) : PageWorld → PageWorld :=
  record (Shared (EvToast title description)).

(** [x || ''] for a possibly [undefined] string. *)
Definition or_empty (o : option string) : string :=
  if truthy o then default EmptyString o else EmptyString.

(** [defaultValues: { name: user?.name || '', bio: user?.bio || '' }] *)
Definition defaultValues (u : option User) : UpdateProfileFormData :=
  Form.mkUpdate (or_empty (name <$> u)) (or_empty (u ≫= bio)).

Definition onSuccess (refreshed : Reply User) (pw : PageWorld) : PageWorld :=
  in_context (refreshUser refreshed)
    (toast "Profile updated!" "Your profile has been updated successfully." pw).

Definition onError (error : JsError) : PageWorld → PageWorld :=
  toast "Update failed"
    (if truthy (response_message error)
     then default "Something went wrong." (response_message error)
     else "Something went wrong.").

(** [updateProfileMutation.mutate(data)]: the [PUT] is sent; [onSuccess]
    when it resolves ([mutationFn] returns [response.data] without
    looking into it), [onError] when it rejects. *)
Definition mutate {A} (formData : UpdateProfileFormData)
    (updated : Reply A) (refreshed : Reply User) (pw : PageWorld) : PageWorld :=
  match updated with
  | Resolve _ => onSuccess refreshed (record (PutUsersMe formData) pw)
  | Reject e => onError e (record (PutUsersMe formData) pw)
  end.

(** Submitting the form with [typed] in its inputs.  Without a User the
    page renders nothing ([if (!user) return null]), and the button is
    disabled while [isSubmitting]; [onSubmit] runs only on values the
    schema ([updateProfileSchema], in [@/lib/schemas]) accepts. *)
Definition submit
    (updateProfileSchema : UpdateProfileFormData → option UpdateProfileFormData)
    {A} (typed : UpdateProfileFormData)
    (updated : Reply A) (refreshed : Reply User) (pw : PageWorld) : PageWorld :=
  match user (auth pw) with
  | None => pw
  | Some _ =>
      if isSubmitting pw then pw
      else
        match updateProfileSchema typed with
        | Some formData => mutate formData updated refreshed pw
        | None => pw
        end
  end.

(** The [GET /users/me] of the refresh, as the page's log shows it. *)
Definition GetUsersMe : ProfileEvent :=
  Shared (EvRequest (mkRequest GET "/users/me" NoPayload)).

(** Fixtures. *)
Definition signed_in : PageWorld :=
  mkPageWorld both_cookies [] (mkAuth (Some alice) false) false.

Definition any_name (typed : UpdateProfileFormData)
  : option UpdateProfileFormData :=
  if truthy (Some (Form.name typed)) then Some typed else None.

End Profile.

(** * Properties *)

(** ** Running handler bodies *)

Lemma requests_app (t1 t2 : list Event) :
  requests (t1 ++ t2) = requests t1 ++ requests t2.
Proof.
  induction t1 as [|ev t1 IH]; [done|].
  destruct ev; simpl; by rewrite ?IH.
Qed.

(** Unfolds the monad and the primitives, leaving the cookie jar's
    operations and the case analyses of the handler in place. *)
Ltac exec :=
  cbv [try_finally try_catch mbind M_bind bind mret M_ret ret throw emit
       modify get_state Cookies_get Cookies_set Cookies_remove api_get
       api_post api_send settle response_data console_error];
  cbn [cookies trace state status data fst snd].

Ltac list_eq := rewrite <- ?(assoc_L (++)); simpl; reflexivity.

Section Auth.

Import AuthContext.

Implicit Types (w : World AuthState) (jar : gmap string Cookie).

Ltac exec_auth :=
  cbv [refreshUser login register logout logout_settled setUser setIsLoading];
  exec; cbn [user isLoading accessToken userData].

(** *** The outcomes of [refreshUser], one equation each *)

Lemma refreshUser_without_token w reply :
  truthy (value <$> cookies w !! "accessToken") = false →
  refreshUser reply w
  = (Normal tt,
     mkWorld (cookies w)
       (trace w ++ [EvSetIsLoading false; EvSetIsLoading false])
       (mkAuth (user (state w)) false)).
Proof.
  intros Hfalsy. exec_auth. rewrite Hfalsy. cbn.
  f_equal. f_equal. list_eq.
Qed.

Lemma refreshUser_answered w (b : ApiBody User) :
  truthy (value <$> cookies w !! "accessToken") = true →
  refreshUser (Resolve (Some b)) w
  = (Normal tt,
     mkWorld (cookies w)
       (trace w
        ++ EvRequest (mkRequest GET "/users/me" NoPayload)
           :: (if status b then [EvSetUser (Some (data b))] else [])
        ++ [EvSetIsLoading false])
       (mkAuth (if status b then Some (data b) else user (state w)) false)).
Proof.
  intros Htruthy. exec_auth. rewrite Htruthy. cbn.
  destruct (status b); cbn; f_equal; f_equal; list_eq.
Qed.

Lemma refreshUser_caught w reply e :
  truthy (value <$> cookies w !! "accessToken") = true →
  caught reply = Some e →
  refreshUser reply w
  = (Normal tt,
     mkWorld (delete "refreshToken" (delete "accessToken" (cookies w)))
       (trace w
        ++ [EvRequest (mkRequest GET "/users/me" NoPayload);
            EvConsoleError "Failed to fetch user:" e;
            EvCookiesRemove "accessToken";
            EvCookiesRemove "refreshToken";
            EvSetIsLoading false])
       (mkAuth (user (state w)) false)).
Proof.
  intros Htruthy Hcaught. exec_auth. rewrite Htruthy. cbn.
  destruct reply as [[b|]|e']; simplify_eq/=; f_equal; f_equal; list_eq.
Qed.

(** *** [login], [register], [logout] *)

Lemma login_answered w email password (b : ApiBody LoginData) :
  login email password (Resolve (Some b)) w
  = (Normal tt,
     if status b then
       mkWorld (<["accessToken" := mkCookie (accessToken (data b)) (Some 7)]> (cookies w))
         (trace w
          ++ [EvRequest (mkRequest POST "/auth/login"
                           (Json [("email", email); ("password", password)]));
              EvCookiesSet "accessToken" (accessToken (data b)) (Some 7);
              EvSetUser (Some (userData (data b)))])
         (mkAuth (Some (userData (data b))) (isLoading (state w)))
     else
       mkWorld (cookies w)
         (trace w
          ++ [EvRequest (mkRequest POST "/auth/login"
                           (Json [("email", email); ("password", password)]))])
         (state w)).
Proof.
  exec_auth. destruct (status b); cbn; f_equal; f_equal; list_eq.
Qed.

Lemma login_thrown w email password reply e :
  caught reply = Some e →
  login email password reply w
  = (Throw e,
     mkWorld (cookies w)
       (trace w
        ++ [EvRequest (mkRequest POST "/auth/login"
                         (Json [("email", email); ("password", password)]))])
       (state w)).
Proof.
  intros Hcaught. exec_auth.
  destruct reply as [[b|]|e']; by simplify_eq/=.
Qed.

Lemma register_answered w name email password (b : ApiBody User) :
  register name email password (Resolve (Some b)) w
  = (Normal tt,
     mkWorld (cookies w)
       (trace w
        ++ EvRequest (mkRequest POST "/auth/register"
                        (Json [("name", name); ("email", email);
                               ("password", password)]))
           :: (if status b then [EvSetUser (Some (data b))] else []))
       (if status b then mkAuth (Some (data b)) (isLoading (state w))
        else state w)).
Proof.
  exec_auth. destruct (status b); cbn; f_equal; f_equal; list_eq.
Qed.

Lemma register_thrown w name email password reply e :
  caught reply = Some e →
  register name email password reply w
  = (Throw e,
     mkWorld (cookies w)
       (trace w
        ++ [EvRequest (mkRequest POST "/auth/register"
                         (Json [("name", name); ("email", email);
                                ("password", password)]))])
       (state w)).
Proof.
  intros Hcaught. exec_auth.
  destruct reply as [[b|]|e']; by simplify_eq/=.
Qed.

Lemma logout_eq w :
  logout w
  = (Normal tt,
     mkWorld (delete "refreshToken" (delete "accessToken" (cookies w)))
       (trace w
        ++ [EvCookiesRemove "accessToken";
            EvCookiesRemove "refreshToken";
            EvSetUser None;
            EvRequest (mkRequest POST "/auth/logout" NoPayload)])
       (mkAuth None (isLoading (state w)))).
Proof. exec_auth. f_equal. f_equal. list_eq. Qed.

Lemma logout_settled_eq w reply : logout_settled reply w = (Normal tt, w).
Proof. exec_auth. by destruct reply. Qed.

Lemma lookup_both_removed jar :
  delete "refreshToken" (delete "accessToken" jar) !! "accessToken" = None
  ∧ delete "refreshToken" (delete "accessToken" jar) !! "refreshToken" = None.
Proof.
  split.
  - rewrite lookup_delete_ne by done. apply lookup_delete_eq.
  - apply lookup_delete_eq.
Qed.

(** *** The session after each operation *)

(** C9 as stated fails: after mount with no cookie and a [register]
    answered with a truthy status flag, no access token is persisted and
    User is present; a [refreshUser] in that state finds no token,
    returns at once, and User is still present afterwards. *)
Lemma refreshUser_no_token_keeps_User :
  cookies (run_ops [OpRegister "Alice" "a@b.com" "pw"
                      (Resolve (Some (mkBody true alice)))]
             (mount ∅)) !! "accessToken" = None
  ∧ ¬ user (state (refreshUser (Resolve (Some (mkBody true alice)))
                     (run_ops [OpRegister "Alice" "a@b.com" "pw"
                                 (Resolve (Some (mkBody true alice)))]
                        (mount ∅))).2)
      = None.
Proof.
  split; [reflexivity|]. intros Habsent. vm_compute in Habsent. discriminate.
Qed.

(** C9 (amended): without a persisted access token, [refreshUser]
    completes normally for every reply, sets [isLoading] to false (once
    before the [return] and once more in [finally]), does not touch
    User (which is therefore absent afterwards exactly when it was
    absent before, as at mount), leaves the cookies alone and sends no
    request. *)
Theorem refreshUser_no_token w reply :
  cookies w !! "accessToken" = None →
  ∃ w', refreshUser reply w = (Normal tt, w')
    ∧ isLoading (state w') = false
    ∧ user (state w') = user (state w)
    ∧ (user (state w) = None → user (state w') = None)
    ∧ cookies w' = cookies w
    ∧ trace w' = trace w ++ [EvSetIsLoading false; EvSetIsLoading false]
    ∧ requests (trace w') = requests (trace w).
Proof.
  intros Hnone. eexists. split.
  - apply refreshUser_without_token. by rewrite Hnone.
  - cbn. repeat split; [done|]. rewrite requests_app. cbn.
    apply (right_id_L [] (++)).
Qed.

Lemma refreshUser_no_token_witness :
  (∅ : gmap string Cookie) !! "accessToken" = None
  ∧ ∃ w', refreshUser (Reject (AxiosError None)) (mount ∅) = (Normal tt, w')
    ∧ isLoading (state w') = false
    ∧ user (state w') = user (state (mount ∅))
    ∧ (user (state (mount ∅)) = None → user (state w') = None)
    ∧ cookies w' = cookies (mount ∅)
    ∧ trace w' = trace (mount ∅) ++ [EvSetIsLoading false; EvSetIsLoading false]
    ∧ requests (trace w') = requests (trace (mount ∅)).
Proof.
  split; [reflexivity|].
  apply (refreshUser_no_token (mount ∅) (Reject (AxiosError None))).
  reflexivity.
Defined.




(** C5: a [login] answered with a truthy status flag completes normally,
    stores the returned access token in the [accessToken] cookie with a
    7-day expiry and replaces User with the returned record; no other
    cookie changes. *)
Theorem login_success w email password (b : ApiBody LoginData) :
  status b = true →
  ∃ w', login email password (Resolve (Some b)) w = (Normal tt, w')
    ∧ cookies w' !! "accessToken" = Some (mkCookie (accessToken (data b)) (Some 7))
    ∧ user (state w') = Some (userData (data b))
    ∧ (∀ key, key ≠ "accessToken" → cookies w' !! key = cookies w !! key)
    ∧ EvCookiesSet "accessToken" (accessToken (data b)) (Some 7) ∈ trace w'.
Proof.
  intros Hstatus. eexists. split; [apply login_answered|].
  rewrite Hstatus. cbn. split; [apply lookup_insert_eq|]. split; [done|].
  split; [|set_solver].
  intros key Hkey. by apply lookup_insert_ne.
Qed.

Lemma login_success_witness :
  status (mkBody true (mkLoginData "jwt" alice)) = true
  ∧ ∃ w', login "a@b.com" "pw" (Resolve (Some (mkBody true (mkLoginData "jwt" alice))))
            (mount ∅)
          = (Normal tt, w')
    ∧ cookies w' !! "accessToken" = Some (mkCookie "jwt" (Some 7))
    ∧ user (state w') = Some alice
    ∧ (∀ key, key ≠ "accessToken" → cookies w' !! key = cookies (mount ∅) !! key)
    ∧ EvCookiesSet "accessToken" "jwt" (Some 7) ∈ trace w'.
Proof.
  split; [reflexivity|].
  apply (login_success (mount ∅) "a@b.com" "pw"
           (mkBody true (mkLoginData "jwt" alice))).
  reflexivity.
Defined.

(** C6: when the request of [login] rejects with [e], the call rejects
    with the same [e]; User, [isLoading] and every cookie are as before,
    and the only effect is the request itself. *)
Theorem login_rejection w email password e :
  ∃ w', login email password (Reject e) w = (Throw e, w')
    ∧ user (state w') = user (state w)
    ∧ state w' = state w
    ∧ cookies w' = cookies w
    ∧ trace w'
      = trace w ++ [EvRequest (mkRequest POST "/auth/login"
                                 (Json [("email", email); ("password", password)]))].
Proof. eexists. split; [by apply login_thrown|]. done. Qed.

(** C10: a [login] answered with a falsy status flag completes normally
    (no rejection), writes no cookie and leaves User unchanged: its only
    effect is the request. *)
Theorem login_falsy_status w email password (b : ApiBody LoginData) :
  status b = false →
  ∃ w', login email password (Resolve (Some b)) w = (Normal tt, w')
    ∧ cookies w' = cookies w
    ∧ user (state w') = user (state w)
    ∧ state w' = state w
    ∧ trace w'
      = trace w ++ [EvRequest (mkRequest POST "/auth/login"
                                 (Json [("email", email); ("password", password)]))].
Proof.
  intros Hstatus. eexists. split; [apply login_answered|].
  by rewrite Hstatus.
Qed.

Lemma login_falsy_status_witness :
  status (mkBody false (mkLoginData "jwt" alice)) = false
  ∧ ∃ w', login "a@b.com" "pw" (Resolve (Some (mkBody false (mkLoginData "jwt" alice))))
            (mount both_cookies)
          = (Normal tt, w')
    ∧ cookies w' = cookies (mount both_cookies)
    ∧ user (state w') = user (state (mount both_cookies))
    ∧ state w' = state (mount both_cookies)
    ∧ trace w'
      = trace (mount both_cookies)
        ++ [EvRequest (mkRequest POST "/auth/login"
                         (Json [("email", "a@b.com"); ("password", "pw")]))].
Proof.
  split; [reflexivity|].
  apply (login_falsy_status (mount both_cookies) "a@b.com" "pw"
           (mkBody false (mkLoginData "jwt" alice))).
  reflexivity.
Defined.

(** C8: a [register] answered with a truthy status flag completes
    normally and sets User from the answer; the cookie jar is untouched
    (no cookie is written or removed, unlike [login]). *)
Theorem register_success w name email password (b : ApiBody User) :
  status b = true →
  ∃ w', register name email password (Resolve (Some b)) w = (Normal tt, w')
    ∧ user (state w') = Some (data b)
    ∧ cookies w' = cookies w
    ∧ trace w'
      = trace w
        ++ [EvRequest (mkRequest POST "/auth/register"
                         (Json [("name", name); ("email", email);
                                ("password", password)]));
            EvSetUser (Some (data b))].
Proof.
  intros Hstatus. eexists. split; [apply register_answered|].
  by rewrite Hstatus.
Qed.

Lemma register_success_witness :
  status (mkBody true alice) = true
  ∧ ∃ w', register "Alice" "a@b.com" "pw" (Resolve (Some (mkBody true alice)))
            (mount both_cookies)
          = (Normal tt, w')
    ∧ user (state w') = Some alice
    ∧ cookies w' = cookies (mount both_cookies)
    ∧ trace w'
      = trace (mount both_cookies)
        ++ [EvRequest (mkRequest POST "/auth/register"
                         (Json [("name", "Alice"); ("email", "a@b.com");
                                ("password", "pw")]));
            EvSetUser (Some alice)].
Proof.
  split; [reflexivity|].
  apply (register_success (mount both_cookies) "Alice" "a@b.com" "pw"
           (mkBody true alice)).
  reflexivity.
Defined.

(** C7: from any state, [logout] (a synchronous function: it awaits
    nothing) removes the [accessToken] and [refreshToken] cookies and
    sets User to absent, and only then sends the logout request; however
    that request settles later, the [catch] handler completes normally
    and changes nothing. *)
Theorem logout_clears_session w :
  ∃ w', logout w = (Normal tt, w')
    ∧ cookies w' !! "accessToken" = None
    ∧ cookies w' !! "refreshToken" = None
    ∧ user (state w') = None
    ∧ trace w'
      = trace w
        ++ [EvCookiesRemove "accessToken";
            EvCookiesRemove "refreshToken";
            EvSetUser None;
            EvRequest (mkRequest POST "/auth/logout" NoPayload)]
    ∧ ∀ reply, logout_settled reply w' = (Normal tt, w').
Proof.
  eexists. split; [apply logout_eq|]. cbn.
  destruct (lookup_both_removed (cookies w)) as [-> ->].
  repeat split. intros reply. apply logout_settled_eq.
Qed.

(** *** The invariant along sessions *)

Lemma token_present_lookup w :
  truthy (value <$> cookies w !! "accessToken") = true →
  cookies w !! "accessToken" ≠ None.
Proof. by intros Htruthy Hnone; rewrite Hnone in Htruthy. Qed.

(** One step keeps the invariant unless it is one of the two singled
    out by [leaves_user_without_token]. *)
Lemma run_op_session_invariant w op :
  leaves_user_without_token w op = false →
  session_invariant w →
  session_invariant (run_op w op).
Proof.
  unfold session_invariant. intros Hstep Hinv.
  destruct op as [reply | e p reply | n e p reply | reply]; cbn [run_op].
  - (* refreshUser *)
    destruct (truthy (value <$> cookies w !! "accessToken")) eqn:Htoken.
    + destruct (caught reply) as [err|] eqn:Hcaught.
      * rewrite (refreshUser_caught w reply err) by done. cbn. intros _.
        destruct reply as [[b|]|err']; try discriminate;
          cbn in Hstep; rewrite Htoken in Hstep;
          by destruct (user (state w)).
      * destruct reply as [[b|]|err']; try discriminate.
        rewrite refreshUser_answered by done. cbn. intros Hnone.
        by apply token_present_lookup in Htoken.
    + rewrite refreshUser_without_token by done. done.
  - (* login *)
    destruct (caught reply) as [err|] eqn:Hcaught.
    + by rewrite (login_thrown w e p reply err).
    + destruct reply as [[b|]|err']; try discriminate.
      rewrite login_answered. cbn. destruct (status b); cbn; [|done].
      by rewrite lookup_insert_eq.
  - (* register *)
    destruct (caught reply) as [err|] eqn:Hcaught.
    + by rewrite (register_thrown w n e p reply err).
    + destruct reply as [[b|]|err']; try discriminate.
      rewrite register_answered. cbn. cbn in Hstep.
      destruct (status b); cbn in *; [|done].
      intros Hnone. by rewrite Hnone in Hstep.
  - (* logout *)
    rewrite logout_eq, logout_settled_eq. done.
Qed.

Lemma tame_session_invariant ops : ∀ w,
  session_invariant w → tame ops w = true → session_invariant (run_ops ops w).
Proof.
  induction ops as [|op ops IH]; intros w Hinv Htame; [done|].
  cbn in Htame. apply andb_prop in Htame as [Hstep Htame].
  apply negb_true_iff in Hstep.
  apply (IH (run_op w op)); [|done].
  by apply run_op_session_invariant.
Qed.

(** C2 as stated fails: straight after mount with no cookie, a
    successful [register] sets User although no access token is
    persisted; and after a successful [login], a [refreshUser] whose
    request rejects removes the token and keeps User. *)
Lemma register_breaks_session_invariant :
  ¬ session_invariant
      (run_ops [OpRegister "Alice" "a@b.com" "pw" (Resolve (Some (mkBody true alice)))]
         (mount ∅))
  ∧ ¬ session_invariant
        (run_ops [OpLogin "a@b.com" "pw"
                    (Resolve (Some (mkBody true (mkLoginData "jwt" alice))));
                  OpRefreshUser (Reject (AxiosError None))]
           (mount ∅)).
Proof.
  split; intros Hinv; specialize (Hinv eq_refl); discriminate Hinv.
Qed.

(** Operations that do not overlap: starting from the mounted provider
    (User absent, whatever the cookies), every sequence of [refreshUser],
    [login], [register] and [logout], each run to completion before the
    next is called, in which no [register] succeeds while the access
    token is absent, and no [refreshUser] request throws while a User is
    present, ends in a state where an absent [accessToken] cookie
    implies an absent User. *)
Theorem session_invariant_tame jar ops :
  tame ops (mount jar) = true →
  session_invariant (run_ops ops (mount jar)).
Proof. intros Htame. by apply tame_session_invariant. Qed.

Lemma session_invariant_tame_witness :
  tame [OpRefreshUser (Reject (AxiosError None));
        OpLogin "a@b.com" "pw" (Resolve (Some (mkBody true (mkLoginData "jwt" alice))));
        OpRegister "Bob" "b@b.com" "pw" (Resolve (Some (mkBody true alice)));
        OpRefreshUser (Resolve (Some (mkBody true alice)));
        OpLogout (Reject (AxiosError None));
        OpRefreshUser (Resolve (Some (mkBody true alice)))]
       (mount both_cookies) = true
  ∧ session_invariant
      (run_ops
         [OpRefreshUser (Reject (AxiosError None));
          OpLogin "a@b.com" "pw" (Resolve (Some (mkBody true (mkLoginData "jwt" alice))));
          OpRegister "Bob" "b@b.com" "pw" (Resolve (Some (mkBody true alice)));
          OpRefreshUser (Resolve (Some (mkBody true alice)));
          OpLogout (Reject (AxiosError None));
          OpRefreshUser (Resolve (Some (mkBody true alice)))]
         (mount both_cookies)).
Proof.
  split; [vm_compute; reflexivity|].
  apply (session_invariant_tame both_cookies
           [OpRefreshUser (Reject (AxiosError None));
            OpLogin "a@b.com" "pw" (Resolve (Some (mkBody true (mkLoginData "jwt" alice))));
            OpRegister "Bob" "b@b.com" "pw" (Resolve (Some (mkBody true alice)));
            OpRefreshUser (Resolve (Some (mkBody true alice)));
            OpLogout (Reject (AxiosError None));
            OpRefreshUser (Resolve (Some (mkBody true alice)))]).
  vm_compute; reflexivity.
Defined.

(** *** More on [refreshUser] *)

(** [refreshUser] with a persisted (non-empty) access token and an
    answer whose status flag is truthy: it completes normally, replaces
    User with the answer's data, clears the loading flag, leaves every
    cookie alone and has sent exactly one [GET /users/me]. *)
Theorem refreshUser_success w (b : ApiBody User) :
  token_present w →
  status b = true →
  ∃ w', refreshUser (Resolve (Some b)) w = (Normal tt, w')
    ∧ user (state w') = Some (data b)
    ∧ isLoading (state w') = false
    ∧ cookies w' = cookies w
    ∧ requests (trace w')
      = requests (trace w) ++ [mkRequest GET "/users/me" NoPayload].
Proof.
  intros Htoken Hstatus. eexists. split; [by apply refreshUser_answered|].
  rewrite Hstatus. cbn. repeat split. rewrite requests_app. done.
Qed.

Lemma refreshUser_success_witness :
  token_present (mount both_cookies)
  ∧ status (mkBody true alice) = true
  ∧ ∃ w', refreshUser (Resolve (Some (mkBody true alice))) (mount both_cookies)
          = (Normal tt, w')
    ∧ user (state w') = Some alice
    ∧ isLoading (state w') = false
    ∧ cookies w' = cookies (mount both_cookies)
    ∧ requests (trace w')
      = requests (trace (mount both_cookies))
        ++ [mkRequest GET "/users/me" NoPayload].
Proof.
  split; [reflexivity|]. split; [reflexivity|].
  apply (refreshUser_success (mount both_cookies) (mkBody true alice));
    reflexivity.
Defined.

(** The three shapes of a finished [refreshUser], for every state and
    every reply. *)
Lemma refreshUser_cases w reply :
  refreshUser reply w
  = (Normal tt,
     if truthy (value <$> cookies w !! "accessToken") then
       match reply with
       | Resolve (Some b) =>
           mkWorld (cookies w)
             (trace w
              ++ EvRequest (mkRequest GET "/users/me" NoPayload)
                 :: (if status b then [EvSetUser (Some (data b))] else [])
              ++ [EvSetIsLoading false])
             (mkAuth (if status b then Some (data b) else user (state w)) false)
       | _ =>
           mkWorld (delete "refreshToken" (delete "accessToken" (cookies w)))
             (trace w
              ++ [EvRequest (mkRequest GET "/users/me" NoPayload);
                  EvConsoleError "Failed to fetch user:"
                    (default (TypeError EmptyString) (caught reply));
                  EvCookiesRemove "accessToken";
                  EvCookiesRemove "refreshToken";
                  EvSetIsLoading false])
             (mkAuth (user (state w)) false)
       end
     else
       mkWorld (cookies w)
         (trace w ++ [EvSetIsLoading false; EvSetIsLoading false])
         (mkAuth (user (state w)) false)).
Proof.
  destruct (truthy (value <$> cookies w !! "accessToken")) eqn:Htoken.
  - destruct reply as [[b|]|e].
    + by apply refreshUser_answered.
    + by apply refreshUser_caught.
    + by apply refreshUser_caught.
  - by apply refreshUser_without_token.
Qed.

(** Whatever the state and however the request settles, [refreshUser]
    completes normally (no rejection reaches the caller) and leaves the
    loading flag cleared. *)
Theorem refreshUser_never_rejects w reply :
  ∃ w', refreshUser reply w = (Normal tt, w') ∧ isLoading (state w') = false.
Proof.
  rewrite refreshUser_cases. eexists. split; [done|].
  destruct (truthy _); [destruct reply as [[b|]|e]|]; done.
Qed.

(** [refreshUser] sends the current-user request exactly when the
    [accessToken] cookie holds a non-empty value: a missing cookie and a
    cookie with the empty string as value both send nothing. *)
Theorem refreshUser_requests w reply :
  requests (trace (refreshUser reply w).2)
  = requests (trace w)
    ++ (if truthy (value <$> cookies w !! "accessToken")
        then [mkRequest GET "/users/me" NoPayload] else []).
Proof.
  rewrite refreshUser_cases. cbn [snd].
  destruct (truthy _); [destruct reply as [[b|]|e]|]; cbn;
    rewrite requests_app; cbn; [by destruct (status b)|done..].
Qed.

(** [refreshUser] never clears User: afterwards User is the answer's
    data when a token was persisted and the answer's status flag is
    truthy, and in every other case (no token, falsy flag, rejection,
    unreadable answer) exactly what it was before. *)
Theorem refreshUser_user w reply :
  user (state (refreshUser reply w).2)
  = match reply with
    | Resolve (Some b) =>
        if truthy (value <$> cookies w !! "accessToken") && status b
        then Some (data b) else user (state w)
    | _ => user (state w)
    end.
Proof.
  rewrite refreshUser_cases. cbn [snd].
  destruct (truthy _); [destruct reply as [[b|]|e]|]; cbn; try done.
  by destruct reply as [[b|]|e].
Qed.

(** *** Whole sessions *)

(** Splits a step into the operation and the way its request settled,
    and rewrites the step with the operation's equation. *)
Ltac step_cases op :=
  destruct op as [[[?b|]|?err] | ?e ?p [[?b|]|?err] | ?n ?e ?p [[?b|]|?err] | ?reply];
  cbn [run_op];
  rewrite ?refreshUser_cases, ?login_answered, ?register_answered,
    ?(login_thrown _ _ _ (Resolve None) _ eq_refl),
    ?(login_thrown _ _ _ (Reject _) _ eq_refl),
    ?(register_thrown _ _ _ _ (Resolve None) _ eq_refl),
    ?(register_thrown _ _ _ _ (Reject _) _ eq_refl),
    ?logout_eq, ?logout_settled_eq;
  cbn [snd].

Lemma run_op_user w op u :
  user (state (run_op w op)) = Some u →
  user (state w) = Some u ∨ supplies op = Some u.
Proof.
  step_cases op; cbn [supplies];
    repeat (destruct (truthy _) || destruct (status _)); cbn; auto;
    discriminate.
Qed.

(** Provenance of User: after any sequence of operations from mount, a
    present User is the data of some operation's answer with a truthy
    status flag ([refreshUser], [login] or [register]); nothing else
    ever sets it. *)
Theorem user_comes_from_an_answer jar ops u :
  user (state (run_ops ops (mount jar))) = Some u →
  ∃ op, op ∈ ops ∧ supplies op = Some u.
Proof.
  assert (∀ w, user (state (run_ops ops w)) = Some u →
            user (state w) = Some u ∨ ∃ op, op ∈ ops ∧ supplies op = Some u)
    as Hgen.
  { induction ops as [|op ops IH]; intros w Huser; [by left|].
    destruct (IH _ Huser) as [Hstep | (op' & Hin & Hsup)].
    - apply run_op_user in Hstep as [?|?]; [by left|].
      right. exists op. split; [left|done].
    - right. exists op'. split; [by right|done]. }
  intros Huser. by destruct (Hgen _ Huser) as [?|?].
Qed.

Lemma user_comes_from_an_answer_witness :
  user (state (run_ops
                 [OpRefreshUser (Reject (AxiosError None));
                  OpLogin "a@b.com" "pw"
                    (Resolve (Some (mkBody true (mkLoginData "jwt" alice))))]
                 (mount both_cookies)))
  = Some alice
  ∧ ∃ op,
      op ∈ [OpRefreshUser (Reject (AxiosError None));
            OpLogin "a@b.com" "pw"
              (Resolve (Some (mkBody true (mkLoginData "jwt" alice))))]
      ∧ supplies op = Some alice.
Proof.
  split; [reflexivity|].
  apply (user_comes_from_an_answer both_cookies
           [OpRefreshUser (Reject (AxiosError None));
            OpLogin "a@b.com" "pw"
              (Resolve (Some (mkBody true (mkLoginData "jwt" alice))))]
           alice).
  reflexivity.
Defined.

Lemma run_op_accessToken w op c :
  cookies (run_op w op) !! "accessToken" = Some c →
  cookies w !! "accessToken" = Some c
  ∨ ∃ tok, issues op = Some tok ∧ c = mkCookie tok (Some 7).
Proof.
  step_cases op; cbn [issues];
    repeat (destruct (truthy _) || destruct (status _)); cbn;
    rewrite ?(proj1 (lookup_both_removed _)); auto; try discriminate.
  rewrite lookup_insert_eq. intros [= <-]. right. eauto.
Qed.

(** Provenance of the access token: after any sequence of operations,
    the [accessToken] cookie is either the cookie the session started
    with or one written by a successful [login], holding the token of
    that login's answer with a 7-day expiry. *)
Theorem accessToken_comes_from_login w ops c :
  cookies (run_ops ops w) !! "accessToken" = Some c →
  cookies w !! "accessToken" = Some c
  ∨ ∃ op tok, op ∈ ops ∧ issues op = Some tok ∧ c = mkCookie tok (Some 7).
Proof.
  revert w. induction ops as [|op ops IH]; intros w Hcookie; [by left|].
  destruct (IH _ Hcookie) as [Hstep | (op' & tok & Hin & Hiss & ->)].
  - apply run_op_accessToken in Hstep as [?|(tok & ? & ->)]; [by left|].
    right. exists op, tok. split; [left|done].
  - right. exists op', tok. split; [by right|done].
Qed.

Lemma accessToken_comes_from_login_witness :
  cookies (run_ops
             [OpLogout (Resolve None);
              OpLogin "a@b.com" "pw"
                (Resolve (Some (mkBody true (mkLoginData "jwt" alice))))]
             (mount both_cookies)) !! "accessToken"
  = Some (mkCookie "jwt" (Some 7))
  ∧ (cookies (mount both_cookies) !! "accessToken" = Some (mkCookie "jwt" (Some 7))
     ∨ ∃ op tok,
         op ∈ [OpLogout (Resolve None);
               OpLogin "a@b.com" "pw"
                 (Resolve (Some (mkBody true (mkLoginData "jwt" alice))))]
         ∧ issues op = Some tok
         ∧ mkCookie "jwt" (Some 7) = mkCookie tok (Some 7)).
Proof.
  split; [reflexivity|].
  apply (accessToken_comes_from_login (mount both_cookies)
           [OpLogout (Resolve None);
            OpLogin "a@b.com" "pw"
              (Resolve (Some (mkBody true (mkLoginData "jwt" alice))))]
           (mkCookie "jwt" (Some 7))).
  reflexivity.
Defined.

Lemma run_op_cookies w op key :
  (key ≠ "accessToken" → key ≠ "refreshToken" →
   cookies (run_op w op) !! key = cookies w !! key)
  ∧ (cookies (run_op w op) !! "refreshToken" = None
     ∨ cookies (run_op w op) !! "refreshToken" = cookies w !! "refreshToken").
Proof.
  step_cases op;
    repeat (destruct (truthy _) || destruct (status _)); cbn;
    rewrite ?(proj2 (lookup_both_removed _)); (split; [intros ??|auto]);
    rewrite ?lookup_delete_ne, ?lookup_insert_ne by done; auto.
Qed.

(** The session only ever touches its own two cookies, and of those it
    only writes [accessToken]: after any sequence of operations every
    other cookie is as it was, and [refreshToken] is either as it was or
    removed (it is never written). *)
Theorem session_cookie_frame w ops :
  (∀ key, key ≠ "accessToken" → key ≠ "refreshToken" →
     cookies (run_ops ops w) !! key = cookies w !! key)
  ∧ (cookies (run_ops ops w) !! "refreshToken" = None
     ∨ cookies (run_ops ops w) !! "refreshToken" = cookies w !! "refreshToken").
Proof.
  revert w. induction ops as [|op ops IH]; intros w; [by auto|].
  destruct (IH (run_op w op)) as [Hother Hrefresh]. split.
  - intros key ??. etrans; [by apply Hother|].
    by apply (run_op_cookies w op key).
  - destruct Hrefresh as [?|Heq]; [by left|].
    cbn [run_ops foldl] in *. fold (run_ops ops (run_op w op)) in *.
    rewrite Heq. apply (run_op_cookies w op "refreshToken").
Qed.

Lemma session_cookie_frame_witness :
  cookies (run_ops
             [OpLogin "a@b.com" "pw"
                (Resolve (Some (mkBody true (mkLoginData "jwt" alice))));
              OpLogout (Resolve None)]
             (mkWorld (<["theme" := mkCookie "dark" None]> both_cookies) []
                (mkAuth None true))) !! "theme"
  = Some (mkCookie "dark" None).
Proof.
  etrans.
  - apply (proj1 (session_cookie_frame
                    (mkWorld (<["theme" := mkCookie "dark" None]> both_cookies) []
                       (mkAuth None true))
                    [OpLogin "a@b.com" "pw"
                       (Resolve (Some (mkBody true (mkLoginData "jwt" alice))));
                     OpLogout (Resolve None)]) "theme");
      discriminate.
  - reflexivity.
Defined.

Lemma run_ops_cons op ops w :
  run_ops (op :: ops) w = run_ops ops (run_op w op).
Proof. reflexivity. Qed.

Lemma run_op_isLoading w op :
  isLoading (state (run_op w op))
  = match op with
    | OpRefreshUser _ => false
    | _ => isLoading (state w)
    end.
Proof.
  step_cases op;
    repeat (destruct (truthy _) || destruct (status _)); done.
Qed.

Lemma run_ops_isLoading_false ops : ∀ w,
  isLoading (state w) = false → isLoading (state (run_ops ops w)) = false.
Proof.
  induction ops as [|op ops IH]; intros w Hidle; [done|].
  rewrite run_ops_cons. apply IH. rewrite run_op_isLoading. by destruct op.
Qed.

(** The loading flag only ever goes down: no operation sets it, every
    [refreshUser] clears it, so a session that contains a [refreshUser]
    (as every mounted provider's does) ends with loading false whatever
    came before or after. *)
Theorem loading_cleared_for_good w ops reply :
  OpRefreshUser reply ∈ ops →
  isLoading (state (run_ops ops w)) = false.
Proof.
  revert w. induction ops as [|op ops IH]; intros w Hin.
  - by apply elem_of_nil in Hin.
  - rewrite run_ops_cons.
    apply elem_of_cons in Hin as [<- | Hin]; [|by apply IH].
    apply run_ops_isLoading_false. by rewrite run_op_isLoading.
Qed.

Lemma loading_cleared_for_good_witness :
  OpRefreshUser (Reject (AxiosError None))
  ∈ [OpRefreshUser (Reject (AxiosError None));
     OpLogin "a@b.com" "pw" (Resolve (Some (mkBody true (mkLoginData "jwt" alice))));
     OpLogout (Resolve None)]
  ∧ isLoading
      (state (run_ops
                [OpRefreshUser (Reject (AxiosError None));
                 OpLogin "a@b.com" "pw"
                   (Resolve (Some (mkBody true (mkLoginData "jwt" alice))));
                 OpLogout (Resolve None)]
                (mount ∅)))
    = false.
Proof.
  split; [left|].
  apply (loading_cleared_for_good (mount ∅)
           [OpRefreshUser (Reject (AxiosError None));
            OpLogin "a@b.com" "pw"
              (Resolve (Some (mkBody true (mkLoginData "jwt" alice))));
            OpLogout (Resolve None)]
           (Reject (AxiosError None))).
  left.
Defined.

Lemma run_op_requests w op :
  ∃ rs, requests (trace (run_op w op)) = requests (trace w) ++ rs
        ∧ length rs ≤ 1.
Proof.
  step_cases op;
    repeat (destruct (truthy _) || destruct (status _)); cbn;
    rewrite ?requests_app; cbn;
    eexists; (split; [reflexivity|]); cbn; lia.
Qed.

(** No retries and no hidden traffic: a session keeps the requests
    already sent and adds at most one request per operation. *)
Theorem at_most_one_request_per_operation w ops :
  ∃ rs, requests (trace (run_ops ops w)) = requests (trace w) ++ rs
        ∧ length rs ≤ length ops.
Proof.
  revert w. induction ops as [|op ops IH]; intros w.
  - exists []. by rewrite (right_id_L [] (++)).
  - destruct (IH (run_op w op)) as (rs & Hrs & Hlen).
    destruct (run_op_requests w op) as (rs1 & Hrs1 & Hlen1).
    exists (rs1 ++ rs). split.
    + rewrite run_ops_cons, Hrs, Hrs1. by rewrite (assoc_L (++)).
    + rewrite length_app. cbn. lia.
Qed.

(** *** How the operations compose *)

(** After [logout] the session is anonymous and stays so across a
    reload: a following [refreshUser] sends no request, whatever it
    would have been answered, and leaves User absent and both cookies
    removed; the only request of the two steps is the logout
    notification. *)
Theorem logout_then_refreshUser w notified reply :
  user (state (run_ops [OpLogout notified; OpRefreshUser reply] w)) = None
  ∧ cookies (run_ops [OpLogout notified; OpRefreshUser reply] w) !! "accessToken" = None
  ∧ cookies (run_ops [OpLogout notified; OpRefreshUser reply] w) !! "refreshToken" = None
  ∧ isLoading (state (run_ops [OpLogout notified; OpRefreshUser reply] w)) = false
  ∧ requests (trace (run_ops [OpLogout notified; OpRefreshUser reply] w))
    = requests (trace w) ++ [mkRequest POST "/auth/logout" NoPayload].
Proof.
  cbn [run_ops foldl run_op].
  rewrite logout_eq, logout_settled_eq. cbn [snd].
  rewrite refreshUser_without_token; cbn.
  - destruct (lookup_both_removed (cookies w)) as [-> ->].
    repeat split. rewrite !requests_app. cbn. by rewrite (right_id_L [] (++)).
  - by rewrite (proj1 (lookup_both_removed (cookies w))).
Qed.

(** [logout] is idempotent on the session: a second [logout] leaves the
    cookies and the provider's state exactly as the first one did (it
    only sends one more notification). *)
Theorem logout_twice w :
  cookies (logout (logout w).2).2 = cookies (logout w).2
  ∧ state (logout (logout w).2).2 = state (logout w).2.
Proof.
  rewrite !logout_eq. cbn. split; [|done].
  apply map_eq. intros key.
  destruct (decide (key = "refreshToken")) as [->|?];
    [by rewrite !lookup_delete_eq|].
  destruct (decide (key = "accessToken")) as [->|?];
    by repeat (rewrite lookup_delete_eq || rewrite lookup_delete_ne by congruence).
Qed.

(** What [login] stores is what [refreshUser] reads back: after a
    [login] answered with a truthy status flag, [refreshUser] sends the
    current-user request exactly when the stored token is not the empty
    string, and with a truthy answer replaces User by that answer's
    data. *)
Theorem login_then_refreshUser w email password (b : ApiBody LoginData)
    (b' : ApiBody User) :
  status b = true →
  status b' = true →
  requests (trace (run_ops [OpLogin email password (Resolve (Some b));
                            OpRefreshUser (Resolve (Some b'))] w))
  = requests (trace w)
    ++ mkRequest POST "/auth/login"
         (Json [("email", email); ("password", password)])
       :: (if truthy (Some (accessToken (data b)))
           then [mkRequest GET "/users/me" NoPayload] else [])
  ∧ user (state (run_ops [OpLogin email password (Resolve (Some b));
                          OpRefreshUser (Resolve (Some b'))] w))
    = Some (if truthy (Some (accessToken (data b)))
            then data b' else userData (data b)).
Proof.
  intros Hb Hb'. cbn [run_ops foldl run_op].
  rewrite login_answered, Hb. cbn [snd].
  rewrite refreshUser_cases. cbn.
  rewrite lookup_insert_eq, Hb'. cbn.
  destruct (accessToken (data b)); cbn; rewrite !requests_app; cbn;
    (split; [list_eq|done]).
Qed.

Lemma login_then_refreshUser_witness :
  status (mkBody true (mkLoginData "jwt" alice)) = true
  ∧ status (mkBody true alice) = true
  ∧ requests (trace (run_ops
                       [OpLogin "a@b.com" "pw"
                          (Resolve (Some (mkBody true (mkLoginData "jwt" alice))));
                        OpRefreshUser (Resolve (Some (mkBody true alice)))]
                       (mount ∅)))
    = requests (trace (mount ∅))
      ++ [mkRequest POST "/auth/login"
            (Json [("email", "a@b.com"); ("password", "pw")]);
          mkRequest GET "/users/me" NoPayload]
  ∧ user (state (run_ops
                   [OpLogin "a@b.com" "pw"
                      (Resolve (Some (mkBody true (mkLoginData "jwt" alice))));
                    OpRefreshUser (Resolve (Some (mkBody true alice)))]
                   (mount ∅)))
    = Some alice.
Proof.
  split; [reflexivity|]. split; [reflexivity|].
  apply (login_then_refreshUser (mount ∅) "a@b.com" "pw"
           (mkBody true (mkLoginData "jwt" alice)) (mkBody true alice));
    reflexivity.
Defined.

(** Mounting the provider: afterwards loading is false, and User is
    present exactly when a non-empty access token was persisted and the
    current-user request was answered with a truthy status flag, in
    which case it is that answer's data. *)
Theorem AuthProvider_mounted jar reply u :
  isLoading (state (AuthProvider jar reply)) = false
  ∧ (user (state (AuthProvider jar reply)) = Some u
     ↔ truthy (value <$> jar !! "accessToken") = true
       ∧ ∃ b, reply = Resolve (Some b) ∧ status b = true ∧ data b = u).
Proof.
  unfold AuthProvider. rewrite refreshUser_cases. cbn. split.
  - destruct (truthy _); [destruct reply as [[b|]|e]|]; done.
  - split.
    + destruct (truthy _); [|discriminate].
      destruct reply as [[b|]|e]; try discriminate. cbn.
      destruct (status b) eqn:Hb; [|discriminate].
      intros [= <-]. eauto.
    + intros (-> & b & -> & Hb & <-). cbn. by rewrite Hb.
Qed.

Lemma AuthProvider_mounted_witness :
  isLoading (state (AuthProvider both_cookies (Resolve (Some (mkBody true alice)))))
  = false
  ∧ user (state (AuthProvider both_cookies (Resolve (Some (mkBody true alice)))))
    = Some alice.
Proof.
  destruct (AuthProvider_mounted both_cookies
              (Resolve (Some (mkBody true alice))) alice) as [Hloading Huser].
  split; [exact Hloading|].
  apply Huser. split; [reflexivity|].
  exists (mkBody true alice). repeat split.
Defined.

(** [register] changes nothing unless it is answered with a truthy status
    flag: for every other reply (falsy flag, rejection, unreadable
    answer) cookies and provider state are as before, and the call
    rejects exactly with the error the request or the reading threw. *)
Theorem register_without_success w name email password reply :
  (∀ b, reply = Resolve (Some b) → status b = false) →
  ∃ w', register name email password reply w
        = (match caught reply with
           | Some e => Throw e
           | None => Normal tt
           end, w')
    ∧ cookies w' = cookies w
    ∧ state w' = state w.
Proof.
  intros Hfalsy. destruct reply as [[b|]|e].
  - rewrite register_answered, (Hfalsy b eq_refl). eauto.
  - rewrite (register_thrown _ _ _ _ (Resolve None) _ eq_refl). eauto.
  - rewrite (register_thrown _ _ _ _ (Reject e) _ eq_refl). eauto.
Qed.

Lemma register_without_success_witness :
  (∀ b, Reject (A:=User) (AxiosError (Some "Email already in use"))
        = Resolve (Some b) → status b = false)
  ∧ ∃ w', register "Alice" "a@b.com" "pw"
            (Reject (AxiosError (Some "Email already in use"))) (mount ∅)
          = (Throw (AxiosError (Some "Email already in use")), w')
    ∧ cookies w' = cookies (mount ∅)
    ∧ state w' = state (mount ∅).
Proof.
  split; [intros b Heq; discriminate Heq|].
  apply (register_without_success (mount ∅) "Alice" "a@b.com" "pw"
           (Reject (AxiosError (Some "Email already in use")))).
  intros b Heq. discriminate Heq.
Defined.

(** *** Overlapping operations *)

Ltac exec_suspended :=
  cbv [refreshUser_called refreshUser_resumed login_called login_resumed
       register_called register_resumed];
  exec_auth.

Lemma refreshUser_called_eq w :
  refreshUser_called w
  = if truthy (value <$> cookies w !! "accessToken") then
      (Normal true,
       mkWorld (cookies w)
         (trace w ++ [EvRequest (mkRequest GET "/users/me" NoPayload)])
         (state w))
    else
      (Normal false,
       mkWorld (cookies w)
         (trace w ++ [EvSetIsLoading false; EvSetIsLoading false])
         (mkAuth (user (state w)) false)).
Proof.
  exec_suspended. destruct (truthy _); cbn; [done|].
  f_equal. f_equal. list_eq.
Qed.

Lemma refreshUser_resumed_eq w reply :
  refreshUser_resumed reply w
  = (Normal tt,
     match reply with
     | Resolve (Some b) =>
         mkWorld (cookies w)
           (trace w
            ++ (if status b then [EvSetUser (Some (data b))] else [])
            ++ [EvSetIsLoading false])
           (mkAuth (if status b then Some (data b) else user (state w)) false)
     | _ =>
         mkWorld (delete "refreshToken" (delete "accessToken" (cookies w)))
           (trace w
            ++ [EvConsoleError "Failed to fetch user:"
                  (default (TypeError EmptyString) (caught reply));
                EvCookiesRemove "accessToken";
                EvCookiesRemove "refreshToken";
                EvSetIsLoading false])
           (mkAuth (user (state w)) false)
     end).
Proof.
  exec_suspended.
  destruct reply as [[b|]|e]; cbn; [destruct (status b); cbn|..];
    f_equal; f_equal; list_eq.
Qed.

Lemma login_resumed_eq w reply :
  login_resumed reply w
  = match reply with
    | Resolve (Some b) =>
        (Normal tt,
         if status b then
           mkWorld (<["accessToken" := mkCookie (accessToken (data b)) (Some 7)]>
                      (cookies w))
             (trace w
              ++ [EvCookiesSet "accessToken" (accessToken (data b)) (Some 7);
                  EvSetUser (Some (userData (data b)))])
             (mkAuth (Some (userData (data b))) (isLoading (state w)))
         else w)
    | _ => (Throw (default (TypeError EmptyString) (caught reply)), w)
    end.
Proof.
  exec_suspended.
  destruct reply as [[b|]|e]; cbn; [destruct (status b); cbn|..]; try done.
  f_equal. f_equal. list_eq.
Qed.

Lemma register_resumed_eq w reply :
  register_resumed reply w
  = match reply with
    | Resolve (Some b) =>
        (Normal tt,
         if status b then
           mkWorld (cookies w) (trace w ++ [EvSetUser (Some (data b))])
             (mkAuth (Some (data b)) (isLoading (state w)))
         else w)
    | _ => (Throw (default (TypeError EmptyString) (caught reply)), w)
    end.
Proof.
  exec_suspended.
  by destruct reply as [[b|]|e]; cbn; [destruct (status b); cbn|..].
Qed.

(** The operations are their two halves run one after the other. *)
Lemma refreshUser_split w reply :
  refreshUser reply w
  = match refreshUser_called w with
    | (Normal true, w') => refreshUser_resumed reply w'
    | (_, w') => (Normal tt, w')
    end.
Proof.
  rewrite refreshUser_cases, refreshUser_called_eq.
  destruct (truthy _); [|done].
  rewrite refreshUser_resumed_eq. cbn.
  destruct reply as [[b|]|e]; cbn; [destruct (status b); cbn|..];
    f_equal; f_equal; list_eq.
Qed.

Lemma login_split w email password reply :
  login email password reply w
  = login_resumed reply (login_called email password w).2.
Proof.
  rewrite login_resumed_eq. destruct reply as [[b|]|e].
  - rewrite login_answered. cbn. destruct (status b); cbn; [|done].
    f_equal. f_equal. list_eq.
  - by rewrite (login_thrown _ _ _ (Resolve None) _ eq_refl).
  - by rewrite (login_thrown _ _ _ (Reject e) _ eq_refl).
Qed.

Lemma register_split w name email password reply :
  register name email password reply w
  = register_resumed reply (register_called name email password w).2.
Proof.
  rewrite register_resumed_eq. destruct reply as [[b|]|e].
  - rewrite register_answered. cbn. destruct (status b); cbn; [|done].
    f_equal. f_equal. list_eq.
  - by rewrite (register_thrown _ _ _ _ (Resolve None) _ eq_refl).
  - by rewrite (register_thrown _ _ _ _ (Reject e) _ eq_refl).
Qed.

Lemma lookup_snoc_length {A} (l : list A) x : (l ++ [x]) !! length l = Some x.
Proof. by rewrite lookup_app_r, Nat.sub_diag by lia. Qed.

Lemma delete_snoc_length {A} (l : list A) x : delete (length l) (l ++ [x]) = l.
Proof.
  induction l as [|y l IH]; [done|].
  change (y :: delete (length l) (l ++ [x]) = y :: l). by rewrite IH.
Qed.

(** A sequence of operations that do not overlap is one of the runs:
    each operation is called and settled before the next is called. *)
Lemma run_op_as_actions s op :
  acts (schedule s op) s = Some (mkSession (run_op (world s) op) (suspended s)).
Proof.
  destruct s as [w inflight].
  destruct op as [reply | e p reply | n e p reply | reply];
    cbn [schedule run_op world suspended].
  - rewrite refreshUser_split, refreshUser_called_eq.
    destruct (truthy _) eqn:Htoken; cbn [acts act world suspended].
    + rewrite refreshUser_called_eq, Htoken. cbn [acts act world suspended].
      by rewrite lookup_snoc_length, delete_snoc_length.
    + by rewrite refreshUser_called_eq, Htoken.
  - cbn [acts act world suspended].
    by rewrite lookup_snoc_length, delete_snoc_length, login_split.
  - cbn [acts act world suspended].
    by rewrite lookup_snoc_length, delete_snoc_length, register_split.
  - cbn [acts act world suspended].
    by rewrite lookup_snoc_length, delete_snoc_length.
Qed.

(** A [logout] while a [refreshUser] is in flight: the cookie is read
    before the [await] and User is set after it, so the answer arriving
    after the [logout] sets User although the token is gone. *)
Lemma logout_while_refreshUser_in_flight :
  ∃ s, acts [CallRefreshUser;
             CallLogout;
             SettleRefreshUser 0 (Resolve (Some (mkBody true alice)))]
         (mounted both_cookies)
       = Some s
    ∧ cookies (world s) !! "accessToken" = None
    ∧ user (state (world s)) = Some alice.
Proof. eexists. split; [reflexivity|]. split; reflexivity. Qed.

Lemma act_session_invariant s a s' :
  act s a = Some s' →
  settles_user_without_token s a = false →
  session_invariant (world s) →
  session_invariant (world s').
Proof.
  unfold session_invariant. destruct s as [w inflight].
  destruct a as [| e p | n e p | | i reply | i reply | i reply | i reply];
    cbn [act world suspended settles_user_without_token];
    rewrite ?refreshUser_called_eq, ?refreshUser_resumed_eq, ?login_resumed_eq,
      ?register_resumed_eq, ?logout_eq, ?logout_settled_eq.
  - destruct (truthy _); intros [= <-] _ Hinv; exact Hinv.
  - intros [= <-] _ Hinv. exact Hinv.
  - intros [= <-] _ Hinv. exact Hinv.
  - by intros [= <-] _ _ _.
  - destruct (inflight !! i) as [[]|]; try discriminate.
    intros [= <-]. cbn [world snd].
    destruct reply as [[b|]|e]; cbn.
    + destruct (status b); cbn; [|by auto].
      intros Hpresent _ Hnone. by rewrite Hnone in Hpresent.
    + intros Hpresent _ _. by destruct (user (state w)).
    + intros Hpresent _ _. by destruct (user (state w)).
  - destruct (inflight !! i) as [[]|]; try discriminate.
    intros [= <-] _ Hinv. cbn [world].
    destruct reply as [[b|]|e]; cbn; [|done..].
    destruct (status b); cbn; [|done]. by rewrite lookup_insert_eq.
  - destruct (inflight !! i) as [[]|]; try discriminate.
    intros [= <-]. cbn [world].
    destruct reply as [[b|]|e]; cbn; [|by auto..].
    destruct (status b); cbn; [|by auto].
    intros Hpresent _ Hnone. by rewrite Hnone in Hpresent.
  - destruct (inflight !! i) as [[]|]; try discriminate.
    by intros [= <-] _ Hinv.
Qed.

Lemma calm_session_invariant l : ∀ s s',
  acts l s = Some s' →
  calm l s = true →
  session_invariant (world s) →
  session_invariant (world s').
Proof.
  induction l as [|a l IH]; intros s s' Hrun Hcalm Hinv.
  - by injection Hrun as <-.
  - cbn in Hrun, Hcalm. apply andb_prop in Hcalm as [Hstep Hcalm].
    apply negb_true_iff in Hstep.
    destruct (act s a) as [s1|] eqn:Hact; [|discriminate].
    apply (IH s1 s'); [done..|].
    by apply (act_session_invariant s a).
Qed.

(** C2 (amended): starting from the mounted provider (User absent,
    whatever the cookies), take any run in which the four operations are
    called and their requests settle in any order, overlapping or not.
    If in that run no [register] and no [refreshUser] is answered with a
    truthy status flag while the [accessToken] cookie is absent, and no
    [refreshUser] request throws while a User is present, then the run
    ends in a state where an absent [accessToken] cookie implies an
    absent User. *)
Theorem session_invariant_interleaved jar l s :
  acts l (mounted jar) = Some s →
  calm l (mounted jar) = true →
  session_invariant (world s).
Proof.
  intros Hrun Hcalm. by apply (calm_session_invariant l (mounted jar) s).
Qed.

Lemma session_invariant_interleaved_witness :
  ∃ s,
    acts [CallRefreshUser;
          CallLogin "a@b.com" "pw";
          SettleLogin 1 (Resolve (Some (mkBody true (mkLoginData "jwt" alice))));
          SettleRefreshUser 0 (Resolve (Some (mkBody true alice)));
          CallRegister "Bob" "b@b.com" "pw";
          CallRefreshUser;
          SettleRegister 0 (Resolve (Some (mkBody true alice)));
          CallLogout;
          SettleRefreshUser 0 (Resolve (Some (mkBody false alice)));
          SettleLogout 0 (Reject (AxiosError None));
          CallRefreshUser]
      (mounted both_cookies)
    = Some s
    ∧ calm [CallRefreshUser;
            CallLogin "a@b.com" "pw";
            SettleLogin 1 (Resolve (Some (mkBody true (mkLoginData "jwt" alice))));
            SettleRefreshUser 0 (Resolve (Some (mkBody true alice)));
            CallRegister "Bob" "b@b.com" "pw";
            CallRefreshUser;
            SettleRegister 0 (Resolve (Some (mkBody true alice)));
            CallLogout;
            SettleRefreshUser 0 (Resolve (Some (mkBody false alice)));
            SettleLogout 0 (Reject (AxiosError None));
            CallRefreshUser]
        (mounted both_cookies)
      = true
    ∧ session_invariant (world s).
Proof.
  let final :=
    eval vm_compute in
      (default (mounted both_cookies)
         (acts [CallRefreshUser;
                CallLogin "a@b.com" "pw";
                SettleLogin 1 (Resolve (Some (mkBody true (mkLoginData "jwt" alice))));
                SettleRefreshUser 0 (Resolve (Some (mkBody true alice)));
                CallRegister "Bob" "b@b.com" "pw";
                CallRefreshUser;
                SettleRegister 0 (Resolve (Some (mkBody true alice)));
                CallLogout;
                SettleRefreshUser 0 (Resolve (Some (mkBody false alice)));
                SettleLogout 0 (Reject (AxiosError None));
                CallRefreshUser]
            (mounted both_cookies)))
  in exists final.
  split; [vm_compute; reflexivity|]. split; [vm_compute; reflexivity|].
  apply (session_invariant_interleaved both_cookies
           [CallRefreshUser;
            CallLogin "a@b.com" "pw";
            SettleLogin 1 (Resolve (Some (mkBody true (mkLoginData "jwt" alice))));
            SettleRefreshUser 0 (Resolve (Some (mkBody true alice)));
            CallRegister "Bob" "b@b.com" "pw";
            CallRefreshUser;
            SettleRegister 0 (Resolve (Some (mkBody true alice)));
            CallLogout;
            SettleRefreshUser 0 (Resolve (Some (mkBody false alice)));
            SettleLogout 0 (Reject (AxiosError None));
            CallRefreshUser]).
  - vm_compute; reflexivity.
  - vm_compute; reflexivity.
Defined.

End Auth.

Section Page.

Import CreateContent.

Implicit Types (w : World PageState).

Ltac exec_page :=
  cbv [click_analyze analyzeContent click_submit handleSubmit onSubmit mutate
       mutationFn onSuccess onError setAiAnalysis setIsAnalyzing
       setValue_status toast navigate];
  exec; cbn [aiAnalysis isAnalyzing values isSubmitting watchedBody watchedStatus].

(** *** The analysis button *)

Lemma body_too_short_spec (watched : option string) :
  body_too_short watched = true
  ↔ match watched with
    | Some b => String.length b < 10
    | None => True
    end.
Proof.
  destruct watched as [b|]; [|done].
  destruct b as [|a b]; cbn [body_too_short truthy negb orb].
  - cbn. split; [lia|done].
  - apply Nat.ltb_lt.
Qed.

Lemma analyzeContent_short w reply :
  body_too_short (watchedBody (values (state w))) = true →
  analyzeContent reply w = (Normal tt, w).
Proof.
  intros Hshort. exec_page.
  destruct (watchedBody (values (state w))) as [b|]; [|done].
  by rewrite Hshort.
Qed.

(** The panel after an analysis request settled as [reply]. *)
Lemma analyzeContent_long w reply b :
  watchedBody (values (state w)) = Some b →
  10 ≤ String.length b →
  analyzeContent reply w
  = (Normal tt,
     mkWorld (cookies w)
       (trace w
        ++ [EvSetIsAnalyzing true;
            EvRequest (mkRequest POST "/content/analyze" (Json [("body", b)]))]
        ++ match reply with
           | Resolve (Some d) =>
               if status d
               then [EvSetAiAnalysis (data d);
                     EvToast "AI Analysis Complete"
                       "Content analyzed successfully with AI insights."]
               else []
           | _ =>
               match caught reply with
               | Some e => [EvConsoleError "Analysis failed:" e]
               | None => []
               end
           end
        ++ [EvSetIsAnalyzing false])
       (mkPage
          match reply with
          | Resolve (Some d) =>
              if status d then Some (data d) else aiAnalysis (state w)
          | _ => aiAnalysis (state w)
          end
          false (values (state w)) (isSubmitting (state w)))).
Proof.
  intros Hbody Hlen. exec_page. rewrite Hbody.
  assert (body_too_short (Some b) = false) as ->.
  { apply not_true_is_false. rewrite body_too_short_spec. lia. }
  destruct reply as [[d|]|e]; cbn; [destruct (status d); cbn|..];
    f_equal; f_equal; list_eq.
Qed.

Lemma click_analyze_eq w reply :
  click_analyze reply w
  = if analyze_button_disabled (state w) then (Normal tt, w)
    else analyzeContent reply w.
Proof.
  unfold click_analyze, mbind, M_bind, bind, get_state.
  by destruct (analyze_button_disabled (state w)).
Qed.

(** C3 as stated fails: with a 13-character body and no analysis in
    flight, an answer whose status flag is falsy leaves the panel empty
    (one request is sent, the panel is not populated from the answer). *)
Lemma analysis_falsy_status_leaves_panel :
  10 ≤ String.length "A first post."
  ∧ isAnalyzing (state (typed "A first post.")) = false
  ∧ requests (trace (click_analyze (Resolve (Some (mkBody false sample_analysis)))
                       (typed "A first post.")).2)
    = [mkRequest POST "/content/analyze" (Json [("body", "A first post.")])]
  ∧ ¬ panel_populated (typed "A first post.") (mkBody false sample_analysis).
Proof.
  split; [cbn; lia|]. split; [reflexivity|]. split; [reflexivity|].
  intros [_ Hpanel]. vm_compute in Hpanel. discriminate.
Qed.

(** C3 (amended): a click on the analysis button changes nothing and
    sends nothing when the body is missing or shorter than 10 characters
    (the guard of [analyzeContent]) or when an analysis is in flight (the
    button is disabled).  With a body of at least 10 characters and none
    in flight it sends exactly one [/content/analyze] request, completes
    normally and clears the in-flight flag; the panel takes the answer's
    data when the answer carries a truthy status flag and is left as it
    was otherwise (falsy flag, rejection, unreadable answer). *)
Theorem click_analyze_guarded w reply :
  (match watchedBody (values (state w)) with
   | Some b => String.length b < 10
   | None => True
   end ∨ isAnalyzing (state w) = true →
   click_analyze reply w = (Normal tt, w))
  ∧ (∀ b,
       watchedBody (values (state w)) = Some b →
       10 ≤ String.length b →
       isAnalyzing (state w) = false →
       ∃ w', click_analyze reply w = (Normal tt, w')
         ∧ requests (trace w')
           = requests (trace w)
             ++ [mkRequest POST "/content/analyze" (Json [("body", b)])]
         ∧ isAnalyzing (state w') = false
         ∧ aiAnalysis (state w')
           = match reply with
             | Resolve (Some d) =>
                 if status d then Some (data d) else aiAnalysis (state w)
             | _ => aiAnalysis (state w)
             end).
Proof.
  rewrite click_analyze_eq. unfold analyze_button_disabled. split.
  - intros [Hshort | ->]; [|done].
    destruct (_ || _); [done|].
    apply analyzeContent_short. by apply body_too_short_spec.
  - intros b Hbody Hlen ->. rewrite Hbody.
    assert (truthy (Some b) = true) as ->.
    { destruct b; [cbn in Hlen; lia | done]. }
    cbn [negb orb]. eexists. split; [by apply analyzeContent_long|].
    cbn. split; [|done].
    rewrite !requests_app. cbn.
    destruct reply as [[d|]|e]; cbn; [destruct (status d)|..]; cbn; list_eq.
Qed.

Lemma click_analyze_guarded_witness :
  (String.length "too short" < 10 ∨ isAnalyzing (state (typed "too short")) = true →
   click_analyze (Resolve (Some (mkBody true sample_analysis))) (typed "too short")
   = (Normal tt, typed "too short"))
  ∧ (10 ≤ String.length "A first post." →
     isAnalyzing (state (typed "A first post.")) = false →
     ∃ w', click_analyze (Resolve (Some (mkBody true sample_analysis)))
             (typed "A first post.")
           = (Normal tt, w')
       ∧ requests (trace w')
         = requests (trace (typed "A first post."))
           ++ [mkRequest POST "/content/analyze" (Json [("body", "A first post.")])]
       ∧ isAnalyzing (state w') = false
       ∧ aiAnalysis (state w') = Some sample_analysis).
Proof.
  split.
  - exact (proj1 (click_analyze_guarded (typed "too short")
                    (Resolve (Some (mkBody true sample_analysis))))).
  - intros Hlen Hflight.
    exact (proj2 (click_analyze_guarded (typed "A first post.")
                    (Resolve (Some (mkBody true sample_analysis))))
             "A first post." eq_refl Hlen Hflight).
Defined.

(** The guard against a second request is the button's [disabled]
    attribute: [analyzeContent] itself does not look at [isAnalyzing]. *)
Lemma analyzeContent_ignores_isAnalyzing w reply b :
  watchedBody (values (state w)) = Some b →
  10 ≤ String.length b →
  requests (trace (analyzeContent reply w).2)
  = requests (trace w)
    ++ [mkRequest POST "/content/analyze" (Json [("body", b)])].
Proof.
  intros Hbody Hlen. rewrite (analyzeContent_long w reply b) by done. cbn.
  rewrite !requests_app. cbn.
  destruct reply as [[d|]|e]; cbn; [destruct (status d)|..]; cbn; list_eq.
Qed.

(** *** The submit buttons *)

Lemma build_form_data_status (d : CreateContentFormData) :
  FormData_get "status" (build_form_data d)
  = Some (Text (status_string (Data.status d))).
Proof. reflexivity. Qed.

Lemma mutate_eq {A} w (d : CreateContentFormData) (reply : Reply A) :
  mutate d reply w
  = (Normal tt,
     mkWorld (cookies w)
       (trace w
        ++ EvRequest (mkRequest POST "/content" (Multipart (build_form_data d)))
           :: match reply with
              | Resolve _ =>
                  [EvToast "Content created!"
                     "Your content has been created successfully.";
                   EvNavigate "/"]
              | Reject e =>
                  [EvToast "Failed to create content"
                     (if truthy (response_message e)
                      then default "Something went wrong." (response_message e)
                      else "Something went wrong.")]
              end)
       (state w)).
Proof.
  exec_page. destruct reply as [body|e]; cbn; f_equal; f_equal; list_eq.
Qed.

Lemma sample_schema_keeps_status (v : FormValues) (d : CreateContentFormData) :
  sample_schema v = Some d → Data.status d = watchedStatus v.
Proof.
  unfold sample_schema. intros Hparse.
  destruct (watchedTitle v), (watchedBody v); try discriminate.
  destruct (_ && _); by simplify_eq.
Qed.

Lemma click_submit_writes_status
    (createContentSchema : FormValues → option CreateContentFormData)
    {A} (b : SubmitButton) (reply : Reply A) w :
  (∀ v d, createContentSchema v = Some d → Data.status d = watchedStatus v) →
  isSubmitting (state w) = false →
  ∃ w' rest,
    click_submit createContentSchema b reply w = (Normal tt, w')
    ∧ trace w'
      = trace w ++ EvSetValue "status" (status_string (target_status b)) :: rest
    ∧ match createContentSchema (with_status (values (state w)) (target_status b)) with
      | Some d =>
          requests rest
          = [mkRequest POST "/content" (Multipart (build_form_data d))]
          ∧ FormData_get "status" (build_form_data d)
            = Some (Text (status_string (target_status b)))
      | None => requests rest = []
      end.
Proof.
  intros Hschema Hidle.
  unfold click_submit, handleSubmit, onSubmit, setValue_status.
  exec. rewrite Hidle. cbn [values].
  destruct (createContentSchema _) as [d|] eqn:Hparse.
  - rewrite mutate_eq. cbn. eexists _, _. split; [done|].
    split; [list_eq|]. split.
    + by destruct reply.
    + etrans; [apply build_form_data_status|].
      by rewrite (Hschema _ _ Hparse).
  - eexists _, []. done.
Qed.

(** C4: on a form that is not submitting, a click on "Save as Draft"
    first writes ['draft'] into the form's status and then runs the
    shared submit handler, and a click on "Publish" first writes
    ['published'] and then runs the same handler.  When the schema
    accepts the form, exactly one [/content] request is sent, and the
    [status] field of its multipart payload reads ['draft'] for "Save as
    Draft" and ['published'] for "Publish"; when the schema refuses,
    nothing is sent.  The schema is assumed to hand on the [status] it
    is given. *)
Theorem submit_button_status
    (createContentSchema : FormValues → option CreateContentFormData)
    {A} (reply : Reply A) w :
  (∀ v d, createContentSchema v = Some d → Data.status d = watchedStatus v) →
  isSubmitting (state w) = false →
  (∃ w' rest,
     click_submit createContentSchema SaveAsDraft reply w = (Normal tt, w')
     ∧ trace w' = trace w ++ EvSetValue "status" "draft" :: rest
     ∧ match createContentSchema (with_status (values (state w)) draft) with
       | Some d =>
           requests rest
           = [mkRequest POST "/content" (Multipart (build_form_data d))]
           ∧ FormData_get "status" (build_form_data d) = Some (Text "draft")
       | None => requests rest = []
       end)
  ∧ (∃ w' rest,
       click_submit createContentSchema Publish reply w = (Normal tt, w')
       ∧ trace w' = trace w ++ EvSetValue "status" "published" :: rest
       ∧ match createContentSchema (with_status (values (state w)) published) with
         | Some d =>
             requests rest
             = [mkRequest POST "/content" (Multipart (build_form_data d))]
             ∧ FormData_get "status" (build_form_data d) = Some (Text "published")
         | None => requests rest = []
         end).
Proof.
  intros Hschema Hidle. split.
  - exact (click_submit_writes_status createContentSchema SaveAsDraft reply w
             Hschema Hidle).
  - exact (click_submit_writes_status createContentSchema Publish reply w
             Hschema Hidle).
Qed.

Lemma submit_button_status_witness :
  (∀ v d, sample_schema v = Some d → Data.status d = watchedStatus v)
  ∧ isSubmitting (state filled) = false
  ∧ (∃ w' rest,
       click_submit sample_schema SaveAsDraft (Resolve (Some (mkBody true tt))) filled
       = (Normal tt, w')
       ∧ trace w' = trace filled ++ EvSetValue "status" "draft" :: rest
       ∧ requests rest
         = [mkRequest POST "/content"
              (Multipart [("title", Text "Hello");
                          ("body", Text "A first post.");
                          ("status", Text "draft");
                          ("tags[0]", Text "a");
                          ("tags[1]", Text "b")])]
         ∧ FormData_get "status"
             [("title", Text "Hello");
              ("body", Text "A first post.");
              ("status", Text "draft");
              ("tags[0]", Text "a");
              ("tags[1]", Text "b")]
           = Some (Text "draft"))
  ∧ (∃ w' rest,
       click_submit sample_schema Publish (Resolve (Some (mkBody true tt))) filled
       = (Normal tt, w')
       ∧ trace w' = trace filled ++ EvSetValue "status" "published" :: rest
       ∧ requests rest
         = [mkRequest POST "/content"
              (Multipart [("title", Text "Hello");
                          ("body", Text "A first post.");
                          ("status", Text "published");
                          ("tags[0]", Text "a");
                          ("tags[1]", Text "b")])]
         ∧ FormData_get "status"
             [("title", Text "Hello");
              ("body", Text "A first post.");
              ("status", Text "published");
              ("tags[0]", Text "a");
              ("tags[1]", Text "b")]
           = Some (Text "published")).
Proof.
  split; [exact sample_schema_keeps_status|]. split; [reflexivity|].
  exact (submit_button_status sample_schema
           (Resolve (Some (mkBody true tt))) filled
           sample_schema_keeps_status eq_refl).
Defined.

(** *** The tags input *)

Lemma split_pieces_free sep s :
  Forall (λ piece, occurs sep piece = false) (split sep s).
Proof.
  induction s as [|c s IH]; cbn.
  - by repeat constructor.
  - destruct (Ascii.eqb c sep) eqn:Hc; [by constructor|].
    destruct (split sep s) as [|piece pieces].
    + constructor; [|done]. cbn. by rewrite Hc.
    + apply Forall_cons in IH as [Hpiece Hpieces].
      constructor; [|done]. cbn. by rewrite Hc.
Qed.

Lemma split_free sep s : occurs sep s = false → split sep s = [s].
Proof.
  induction s as [|c s IH]; [done|]. cbn.
  intros [Hc Hs]%orb_false_elim. by rewrite Hc, IH.
Qed.

Lemma split_app sep s rest :
  occurs sep s = false →
  split sep (s +:+ String sep rest) = s :: split sep rest.
Proof.
  induction s as [|c s IH].
  - intros _. change (split sep (String sep rest) = [EmptyString] ++ split sep rest).
    cbn. by rewrite Ascii.eqb_refl.
  - change (String c s +:+ String sep rest) with (String c (s +:+ String sep rest)).
    cbn. intros [Hc Hs]%orb_false_elim. by rewrite Hc, IH.
Qed.

Lemma trimStart_free c s : occurs c s = false → occurs c (trimStart s) = false.
Proof.
  induction s as [|c' s IH]; [done|]. cbn.
  intros [Hc Hs]%orb_false_elim.
  destruct (is_whitespace c'); [by apply IH|]. cbn. by rewrite Hc.
Qed.

Lemma trimEnd_free c s : occurs c s = false → occurs c (trimEnd s) = false.
Proof.
  induction s as [|c' s IH]; [done|]. cbn.
  intros [Hc Hs]%orb_false_elim. specialize (IH Hs).
  destruct (trimEnd s); [destruct (is_whitespace c')|]; cbn in *;
    by rewrite ?Hc, ?IH.
Qed.

Lemma trimStart_head s :
  trimStart s = EmptyString
  ∨ ∃ c t, trimStart s = String c t ∧ is_whitespace c = false.
Proof.
  induction s as [|c s IH]; [by left|]. cbn.
  destruct (is_whitespace c) eqn:Hc; [done|]. right. eauto.
Qed.

Lemma trimEnd_head c s :
  is_whitespace c = false → ∃ t, trimEnd (String c s) = String c t.
Proof.
  intros Hc. cbn. destruct (trimEnd s); rewrite ?Hc; eauto.
Qed.

Lemma trimEnd_idem s : trimEnd (trimEnd s) = trimEnd s.
Proof.
  induction s as [|c s IH]; [done|]. cbn.
  destruct (trimEnd s) as [|d t] eqn:Hs.
  - destruct (is_whitespace c) eqn:Hc; [done|]. cbn. by rewrite Hc.
  - change (trimEnd (String c (String d t))) with
      (match trimEnd (String d t) with
       | EmptyString =>
           if is_whitespace c then EmptyString else String c EmptyString
       | u => String c u
       end).
    by rewrite IH.
Qed.

Lemma trim_idem s : trim (trim s) = trim s.
Proof.
  unfold trim. destruct (trimStart_head s) as [-> | (c & t & -> & Hc)]; [done|].
  destruct (trimEnd_head c t Hc) as [t' Ht']. rewrite Ht'.
  cbn [trimStart]. rewrite Hc, <- Ht'. apply trimEnd_idem.
Qed.

Lemma parse_tags_Forall_clean input : Forall clean_tag (parse_tags input).
Proof.
  apply Forall_forall. intros tag [Hfull Htag]%list_elem_of_filter.
  apply list_elem_of_fmap in Htag as (piece & -> & Hpiece).
  pose proof (split_pieces_free ","%char input) as Hfree.
  rewrite Forall_forall in Hfree.
  split; [|split].
  - intros Hempty. by rewrite Hempty in Hfull.
  - apply trimEnd_free, trimStart_free. by apply Hfree.
  - apply trim_idem.
Qed.

Lemma trimEnd_last s c :
  last_unit (trimEnd s) = Some c → is_whitespace c = false.
Proof.
  induction s as [|c' s IH]; [done|]. cbn [trimEnd].
  destruct (trimEnd s) as [|d t].
  - destruct (is_whitespace c') eqn:Hc'; [done|]. by intros [= <-].
  - exact IH.
Qed.

Lemma trim_no_space_at_ends s : no_space_at_ends (trim s).
Proof.
  unfold trim. split; [|apply trimEnd_last].
  destruct (trimStart_head s) as [-> | (c & t & -> & Hc)]; [done|].
  destruct (trimEnd_head c t Hc) as [t' ->]. by intros c' [= <-].
Qed.

(** Every tag the tags input stores is usable as it is, whatever was
    typed: it is not empty, it contains no comma, and neither its first
    nor its last code unit is white space. *)
Theorem parse_tags_clean input :
  Forall (λ tag, tag ≠ EmptyString
                 ∧ occurs ","%char tag = false
                 ∧ no_space_at_ends tag)
    (parse_tags input).
Proof.
  apply Forall_forall. intros tag Htag.
  pose proof (parse_tags_Forall_clean input) as Hclean.
  rewrite Forall_forall in Hclean.
  destruct (Hclean tag Htag) as (Hfull & Hfree & _).
  split; [done|]. split; [done|].
  apply list_elem_of_filter in Htag as [_ Htag].
  apply list_elem_of_fmap in Htag as (piece & -> & _).
  apply trim_no_space_at_ends.
Qed.

Lemma split_concat ts :
  Forall (λ tag, occurs ","%char tag = false) ts →
  split ","%char (String.concat "," ts)
  = match ts with
    | [] => [EmptyString]
    | _ => ts
    end.
Proof.
  induction 1 as [|tag ts Htag Hts IH]; [done|].
  destruct ts as [|tag' ts].
  - cbn. by apply split_free.
  - change (String.concat "," (tag :: tag' :: ts))
      with (tag +:+ String ","%char (String.concat "," (tag' :: ts))).
    by rewrite split_app, IH.
Qed.

(** Round trip through the tags input: typing clean tags joined by
    commas gives exactly those tags back, in order.  In particular what
    the input yields is stable: parsing its own output, joined by
    commas, changes nothing. *)
Theorem parse_tags_concat ts :
  Forall clean_tag ts →
  parse_tags (String.concat "," ts) = ts.
Proof.
  intros Hclean. unfold parse_tags. rewrite split_concat.
  - destruct ts as [|tag ts]; [done|].
    induction Hclean as [|tag' ts' (Hfull & _ & Htrim) _ IH]; [done|].
    rewrite fmap_cons, Htrim, filter_cons_True; [by rewrite IH|].
    by destruct tag'.
  - eapply Forall_impl; [done|]. by intros tag (_ & ? & _).
Qed.

Lemma parse_tags_concat_witness :
  Forall clean_tag (parse_tags " ai , machine learning,,  ")
  ∧ parse_tags (String.concat "," (parse_tags " ai , machine learning,,  "))
    = parse_tags " ai , machine learning,,  ".
Proof.
  split; [apply parse_tags_Forall_clean|].
  apply (parse_tags_concat (parse_tags " ai , machine learning,,  ")).
  apply parse_tags_Forall_clean.
Defined.

Lemma split_pieces_blank s :
  blank s = true → Forall (λ piece, blank piece = true) (split ","%char s).
Proof.
  induction s as [|c s IH]; cbn.
  - by repeat constructor.
  - intros [Hc Hs]%andb_prop. specialize (IH Hs).
    destruct (Ascii.eqb c ","%char) eqn:Hcomma; [by constructor|].
    destruct (split ","%char s) as [|piece pieces].
    + constructor; [|done]. cbn. by rewrite Hcomma, Hc.
    + apply Forall_cons in IH as [Hpiece Hpieces].
      constructor; [|done]. cbn. by rewrite Hcomma, Hc, Hpiece.
Qed.

Lemma trim_blank s :
  blank s = true → occurs ","%char s = false → trim s = EmptyString.
Proof.
  unfold trim. induction s as [|c s IH]; [done|]. cbn.
  intros [Hc Hs]%andb_prop [Hcomma Hfree]%orb_false_elim.
  rewrite Hcomma, orb_false_r in Hc. rewrite Hc. by apply IH.
Qed.

(** An input of nothing but commas and white space (the empty input
    included) stores the empty list of tags. *)
Theorem parse_tags_blank input : blank input = true → parse_tags input = [].
Proof.
  intros Hblank. unfold parse_tags.
  pose proof (split_pieces_blank input Hblank) as Hpieces.
  pose proof (split_pieces_free ","%char input) as Hfree.
  induction (split ","%char input) as [|piece pieces IH]; [done|].
  apply Forall_cons in Hpieces as [Hpiece Hpieces].
  apply Forall_cons in Hfree as [Hfree1 Hfree].
  rewrite fmap_cons, trim_blank by done.
  rewrite filter_cons_False by (cbn; intros []).
  by apply IH.
Qed.

Lemma parse_tags_blank_witness :
  blank " , ,,  " = true ∧ parse_tags " , ,,  " = [].
Proof.
  split; [reflexivity|]. apply (parse_tags_blank " , ,,  "). reflexivity.
Defined.

(** *** The multipart payload, field by field *)

Lemma append_length s t :
  String.length (s +:+ t) = String.length s + String.length t.
Proof.
  induction s as [|c s IH]; [done|].
  change (String c s +:+ t) with (String c (s +:+ t)). cbn. by rewrite IH.
Qed.

Lemma append_inj_r t s1 s2 : s1 +:+ t = s2 +:+ t → s1 = s2.
Proof.
  revert s2. induction s1 as [|c1 s1 IH]; intros [|c2 s2] Heq; [done|..].
  - apply (f_equal String.length) in Heq.
    rewrite !append_length in Heq. cbn in Heq. lia.
  - apply (f_equal String.length) in Heq.
    rewrite !append_length in Heq. cbn in Heq. lia.
  - change (String c1 (s1 +:+ t) = String c2 (s2 +:+ t)) in Heq.
    injection Heq as -> Heq. f_equal. by apply IH.
Qed.

Lemma tag_key_unfold index :
  tag_key index
  = String "t" (String "a" (String "g" (String "s" (String "["
      (pretty index +:+ "]"))))).
Proof. reflexivity. Qed.

Lemma tag_key_eqb i j :
  String.eqb (tag_key i) (tag_key j) = bool_decide (i = j).
Proof.
  case_bool_decide as Hij.
  - subst. apply String.eqb_refl.
  - apply String.eqb_neq. rewrite !tag_key_unfold. intros [= Heq].
    apply append_inj_r in Heq. by apply (inj pretty) in Heq.
Qed.

Lemma FormData_get_skip key (fd rest : FormData) :
  Forall (λ entry, String.eqb entry.1 key = false) fd →
  FormData_get key (fd ++ rest) = FormData_get key rest.
Proof.
  induction 1 as [|[k v] fd Hk _ IH]; [done|].
  cbn in *. by rewrite Hk.
Qed.

Lemma FormData_get_tags ts : ∀ k index (rest : FormData),
  FormData_get (tag_key index)
    (imap (λ i tag, (tag_key (k + i), Text tag)) ts ++ rest)
  = match (if decide (k ≤ index) then ts !! (index - k) else None) with
    | Some tag => Some (Text tag)
    | None => FormData_get (tag_key index) rest
    end.
Proof.
  induction ts as [|tag ts IH]; intros k index rest.
  - cbn. by destruct (decide _); rewrite ?lookup_nil.
  - rewrite imap_cons. cbn [app FormData_get].
    rewrite tag_key_eqb. case_bool_decide as Hk.
    + rewrite Nat.add_0_r in Hk. subst index.
      rewrite decide_True by lia. by rewrite Nat.sub_diag.
    + rewrite (imap_ext _ (λ i tag, (tag_key (S k + i), Text tag)))
        by (intros; cbn; do 2 f_equal; lia).
      rewrite IH. repeat case_decide; try lia; [|done].
      replace (index - k) with (S (index - S k)) by lia. done.
Qed.

Lemma build_form_data_tag (d : CreateContentFormData) index :
  FormData_get (tag_key index) (build_form_data d)
  = Text <$> (default [] (Data.tags d) !! index).
Proof.
  unfold build_form_data. rewrite tag_key_unfold.
  cbn [app FormData_get String.eqb Ascii.eqb Bool.eqb].
  rewrite <- tag_key_unfold.
  assert (FormData_get (tag_key index)
            match Data.featuredImage d with
            | Some file => [("featuredImage", Blob file)]
            | None => []
            end = None) as Himage.
  { rewrite tag_key_unfold. by destruct (Data.featuredImage d). }
  destruct (Data.tags d) as [ts|]; cbn [default]; unfold id.
  - rewrite (FormData_get_tags ts 0). rewrite decide_True by lia.
    rewrite Nat.sub_0_r, Himage. by destruct (ts !! index).
  - by rewrite lookup_nil.
Qed.

(** Reading the multipart payload back by field name gives the form
    data: [title], [body] and [status] as text, the file under
    [featuredImage] exactly when there is one, and under [tags[i]] the
    i-th tag for every index of the list (and nothing beyond it); no
    field shadows another. *)
Theorem build_form_data_fields (d : CreateContentFormData) :
  FormData_get "title" (build_form_data d) = Some (Text (Data.title d))
  ∧ FormData_get "body" (build_form_data d) = Some (Text (Data.body d))
  ∧ FormData_get "status" (build_form_data d)
    = Some (Text (status_string (Data.status d)))
  ∧ FormData_get "featuredImage" (build_form_data d)
    = Blob <$> Data.featuredImage d
  ∧ ∀ index,
      FormData_get (tag_key index) (build_form_data d)
      = Text <$> (default [] (Data.tags d) !! index).
Proof.
  split; [done|]. split; [done|]. split; [done|]. split.
  - unfold build_form_data.
    change (FormData_get "featuredImage" ?fd) with
      (FormData_get "featuredImage"
         (match Data.tags d with
          | Some ts => imap (λ index tag, (tag_key index, Text tag)) ts
          | None => []
          end
          ++ match Data.featuredImage d with
             | Some file => [("featuredImage", Blob file)]
             | None => []
             end)).
    rewrite FormData_get_skip; [by destruct (Data.featuredImage d)|].
    destruct (Data.tags d) as [ts|]; [|done].
    apply Forall_forall. intros [k v] (i & tag & [= -> ->] & _)%elem_of_lookup_imap.
    by rewrite tag_key_unfold.
  - apply build_form_data_tag.
Qed.

(** *** Submission and analysis, end to end *)

Lemma onError_description e :
  (if truthy (response_message e)
   then default "Something went wrong." (response_message e)
   else "Something went wrong.")
  = error_description e.
Proof.
  unfold error_description. by destruct (response_message e) as [[|c m]|].
Qed.

Lemma click_submit_accepted
    (createContentSchema : FormValues → option CreateContentFormData)
    {A} (b : SubmitButton) (reply : Reply A) w (d : CreateContentFormData) :
  isSubmitting (state w) = false →
  createContentSchema (with_status (values (state w)) (target_status b)) = Some d →
  trace (click_submit createContentSchema b reply w).2
  = trace w
    ++ [EvSetValue "status" (status_string (target_status b));
        EvRequest (mkRequest POST "/content" (Multipart (build_form_data d)))]
    ++ match reply with
       | Resolve _ =>
           [EvToast "Content created!"
              "Your content has been created successfully.";
            EvNavigate "/"]
       | Reject e => [EvToast "Failed to create content" (error_description e)]
       end.
Proof.
  intros Hidle Hparse.
  unfold click_submit, handleSubmit, onSubmit, setValue_status.
  exec. rewrite Hidle. cbn [values]. rewrite Hparse, mutate_eq. cbn.
  destruct reply as [body|e]; rewrite ?onError_description; list_eq.
Qed.

(** How a submission the schema accepts ends: the status write, one
    [POST /content] with the multipart payload, then, when the request
    resolves (whatever the response body or its status flag), the success
    toast and navigation to ["/"]; when it rejects, one error toast and
    no navigation.  The error toast shows the server's message when that
    is a non-empty string and ["Something went wrong."] otherwise, so
    its description is never empty. *)
Theorem submit_outcome
    (createContentSchema : FormValues → option CreateContentFormData)
    {A} (b : SubmitButton) (reply : Reply A) w (d : CreateContentFormData) :
  isSubmitting (state w) = false →
  createContentSchema (with_status (values (state w)) (target_status b)) = Some d →
  trace (click_submit createContentSchema b reply w).2
  = trace w
    ++ [EvSetValue "status" (status_string (target_status b));
        EvRequest (mkRequest POST "/content" (Multipart (build_form_data d)))]
    ++ match reply with
       | Resolve _ =>
           [EvToast "Content created!"
              "Your content has been created successfully.";
            EvNavigate "/"]
       | Reject e => [EvToast "Failed to create content" (error_description e)]
       end
  ∧ ∀ e, error_description e ≠ EmptyString.
Proof.
  intros Hidle Hparse. split.
  - by apply click_submit_accepted.
  - intros e. unfold error_description.
    by destruct (response_message e) as [[|c m]|].
Qed.

Lemma submit_outcome_witness :
  isSubmitting (state filled) = false
  ∧ sample_schema (with_status (values (state filled)) (target_status SaveAsDraft))
    = Some (Data.mkData "Hello" "A first post." (Some ["a"; "b"]) None draft)
  ∧ trace (click_submit sample_schema SaveAsDraft
             (Reject (A:=unit) (AxiosError (Some "Title already taken"))) filled).2
    = trace filled
      ++ [EvSetValue "status" "draft";
          EvRequest (mkRequest POST "/content"
                       (Multipart (build_form_data
                          (Data.mkData "Hello" "A first post." (Some ["a"; "b"])
                             None draft))))]
      ++ [EvToast "Failed to create content" "Title already taken"].
Proof.
  split; [reflexivity|]. split; [reflexivity|].
  exact (proj1 (submit_outcome sample_schema SaveAsDraft
                  (Reject (AxiosError (Some "Title already taken"))) filled
                  (Data.mkData "Hello" "A first post." (Some ["a"; "b"]) None draft)
                  eq_refl eq_refl)).
Defined.

(** A click on a submit button touches nothing but the form's status:
    cookies, analysis panel, in-flight flags and the other form values
    are as before.  An enabled button leaves its status in the form even
    when the schema refuses the form and nothing is sent; a disabled one
    ([isSubmitting]) changes nothing at all. *)
Theorem click_submit_frame
    (createContentSchema : FormValues → option CreateContentFormData)
    {A} (b : SubmitButton) (reply : Reply A) w :
  cookies (click_submit createContentSchema b reply w).2 = cookies w
  ∧ state (click_submit createContentSchema b reply w).2
    = mkPage (aiAnalysis (state w)) (isAnalyzing (state w))
        (if isSubmitting (state w) then values (state w)
         else with_status (values (state w)) (target_status b))
        (isSubmitting (state w))
  ∧ (isSubmitting (state w) = true →
     click_submit createContentSchema b reply w = (Normal tt, w)).
Proof.
  unfold click_submit, handleSubmit, onSubmit, setValue_status. exec.
  destruct w as [jar t [panel flight v submitting]]. cbn.
  destruct submitting; cbn; [done|].
  destruct (createContentSchema _) as [d|]; [rewrite mutate_eq|]; done.
Qed.

Lemma click_submit_frame_witness :
  isSubmitting
    (state (mkWorld ∅ []
              (mkPage None false (mkValues (Some "Hello") None None None draft) true)))
  = true
  ∧ click_submit sample_schema Publish (Resolve (Some (mkBody true tt)))
      (mkWorld ∅ []
         (mkPage None false (mkValues (Some "Hello") None None None draft) true))
    = (Normal tt,
       mkWorld ∅ []
         (mkPage None false (mkValues (Some "Hello") None None None draft) true)).
Proof.
  split; [reflexivity|].
  apply (proj2 (proj2 (click_submit_frame sample_schema Publish
                         (Resolve (Some (mkBody true tt)))
                         (mkWorld ∅ []
                            (mkPage None false
                               (mkValues (Some "Hello") None None None draft)
                               true))))).
  reflexivity.
Defined.

(** A click on the analysis button never rejects and never touches the
    form, the submitting flag or the cookies; it never leaves the
    in-flight flag set (if the flag is set afterwards, the click was a
    no-op on a page already analysing). *)
Theorem click_analyze_never_rejects w reply :
  ∃ w', click_analyze reply w = (Normal tt, w')
    ∧ values (state w') = values (state w)
    ∧ isSubmitting (state w') = isSubmitting (state w)
    ∧ cookies w' = cookies w
    ∧ (isAnalyzing (state w') = true → w' = w).
Proof.
  rewrite click_analyze_eq.
  destruct (analyze_button_disabled (state w)); [by eauto 6|].
  destruct (body_too_short (watchedBody (values (state w)))) eqn:Hshort.
  - rewrite analyzeContent_short by done. eauto 6.
  - destruct (watchedBody (values (state w))) as [body|] eqn:Hbody;
      [|discriminate].
    rewrite (analyzeContent_long w reply body Hbody).
    + eexists. split; [done|]. cbn. repeat split. discriminate.
    + apply not_true_iff_false in Hshort.
      rewrite body_too_short_spec in Hshort. lia.
Qed.

(** A failed analysis is silent for the user: when the request rejects
    or its answer cannot be read, the error goes to the console, no
    toast is shown, the panel keeps what it showed and the in-flight
    flag is cleared. *)
Theorem analysis_failure_is_silent w reply body e :
  watchedBody (values (state w)) = Some body →
  10 ≤ String.length body →
  isAnalyzing (state w) = false →
  caught reply = Some e →
  trace (click_analyze reply w).2
  = trace w
    ++ [EvSetIsAnalyzing true;
        EvRequest (mkRequest POST "/content/analyze" (Json [("body", body)]));
        EvConsoleError "Analysis failed:" e;
        EvSetIsAnalyzing false]
  ∧ aiAnalysis (state (click_analyze reply w).2) = aiAnalysis (state w)
  ∧ isAnalyzing (state (click_analyze reply w).2) = false.
Proof.
  intros Hbody Hlen Hidle Hcaught.
  rewrite click_analyze_eq. unfold analyze_button_disabled.
  rewrite Hidle, Hbody.
  assert (truthy (Some body) = true) as ->.
  { destruct body; [cbn in Hlen; lia | done]. }
  cbn [negb orb]. rewrite (analyzeContent_long w reply body) by done.
  destruct reply as [[d|]|e']; simplify_eq/=; done.
Qed.

Lemma analysis_failure_is_silent_witness :
  watchedBody (values (state (typed "A first post."))) = Some "A first post."
  ∧ 10 ≤ String.length "A first post."
  ∧ isAnalyzing (state (typed "A first post.")) = false
  ∧ caught (Reject (A:=Analysis) (AxiosError None)) = Some (AxiosError None)
  ∧ trace (click_analyze (Reject (AxiosError None)) (typed "A first post.")).2
    = trace (typed "A first post.")
      ++ [EvSetIsAnalyzing true;
          EvRequest (mkRequest POST "/content/analyze"
                       (Json [("body", "A first post.")]));
          EvConsoleError "Analysis failed:" (AxiosError None);
          EvSetIsAnalyzing false]
  ∧ aiAnalysis (state (click_analyze (Reject (AxiosError None))
                         (typed "A first post.")).2)
    = aiAnalysis (state (typed "A first post."))
  ∧ isAnalyzing (state (click_analyze (Reject (AxiosError None))
                          (typed "A first post.")).2)
    = false.
Proof.
  split; [reflexivity|]. split; [cbn; lia|]. split; [reflexivity|].
  split; [reflexivity|].
  apply (analysis_failure_is_silent (typed "A first post.")
           (Reject (AxiosError None)) "A first post." (AxiosError None));
    [reflexivity | cbn; lia | reflexivity | reflexivity].
Defined.

(** What is typed into the tags input is what the server receives:
    after [onChange] of the tags input and a submit click the schema
    accepts, the one request's payload holds under [tags[i]] the i-th
    parsed tag, for every index (the schema is assumed to hand on the
    tags it is given). *)
Theorem typed_tags_reach_payload
    (createContentSchema : FormValues → option CreateContentFormData)
    {A} (b : SubmitButton) (reply : Reply A) w input (d : CreateContentFormData) :
  (∀ v d', createContentSchema v = Some d' → Data.tags d' = watchedTags v) →
  isSubmitting (state w) = false →
  createContentSchema
    (with_status (values (state (onChange_tags input w).2)) (target_status b))
  = Some d →
  requests (trace (click_submit createContentSchema b reply
                     (onChange_tags input w).2).2)
  = requests (trace w)
    ++ [mkRequest POST "/content" (Multipart (build_form_data d))]
  ∧ ∀ index,
      FormData_get (tag_key index) (build_form_data d)
      = Text <$> (parse_tags input !! index).
Proof.
  intros Hschema Hidle Hparse. split.
  - rewrite (click_submit_accepted createContentSchema b reply
               (onChange_tags input w).2 d Hidle Hparse).
    assert (requests (trace (onChange_tags input w).2) = requests (trace w))
      as Htyped.
    { unfold onChange_tags, setValue_tags. exec.
      rewrite requests_app. apply (right_id_L [] (++)). }
    rewrite !requests_app, Htyped. f_equal. by destruct reply.
  - intros index.
    rewrite build_form_data_tag.
    by rewrite (Hschema _ _ Hparse).
Qed.

Lemma typed_tags_reach_payload_witness :
  (∀ v d', sample_schema v = Some d' → Data.tags d' = watchedTags v)
  ∧ isSubmitting (state filled) = false
  ∧ FormData_get (tag_key 1)
      (build_form_data
         (Data.mkData "Hello" "A first post." (Some ["ai"; "machine learning"])
            None published))
    = Some (Text "machine learning").
Proof.
  assert (∀ v d', sample_schema v = Some d' → Data.tags d' = watchedTags v)
    as Hschema.
  { intros v d'. unfold sample_schema.
    destruct (watchedTitle v), (watchedBody v); try discriminate.
    destruct (_ && _); [|discriminate]. by intros [= <-]. }
  split; [exact Hschema|]. split; [reflexivity|].
  exact (proj2 (typed_tags_reach_payload sample_schema Publish
                  (Resolve (Some (mkBody true tt))) filled
                  " ai , machine learning,,  "
                  (Data.mkData "Hello" "A first post."
                     (Some ["ai"; "machine learning"]) None published)
                  Hschema eq_refl eq_refl) 1).
Defined.

End Page.

Section ProfilePage.

Import AuthContext Profile.

Implicit Types (pw : PageWorld).

(** *** Updating the profile *)

(** A profile update the server accepts: the [PUT] is sent, the success
    toast is shown, and the page then asks the auth context to refresh;
    with a persisted token and a truthy answer, User becomes the data of
    that answer.  The body of the [PUT] response plays no part: the
    result is the same for every resolved response. *)
Theorem profile_update_refreshes_user
    (updateProfileSchema : UpdateProfileFormData → option UpdateProfileFormData)
    {A} typed (d : UpdateProfileFormData) (body : option (ApiBody A))
    (b : ApiBody User) pw :
  is_Some (user (auth pw)) →
  isSubmitting pw = false →
  updateProfileSchema typed = Some d →
  truthy (value <$> jar pw !! "accessToken") = true →
  status b = true →
  submit updateProfileSchema typed (Resolve body) (Resolve (Some b)) pw
  = mkPageWorld (jar pw)
      (log pw
       ++ [PutUsersMe d;
           Shared (EvToast "Profile updated!"
                     "Your profile has been updated successfully.");
           GetUsersMe;
           Shared (EvSetUser (Some (data b)));
           Shared (EvSetIsLoading false)])
      (mkAuth (Some (data b)) false)
      false.
Proof.
  intros [u Huser] Hidle Hparse Htoken Hstatus.
  unfold submit, mutate, onSuccess, toast, record, in_context.
  rewrite Huser, Hidle, Hparse. cbn [jar auth log Profile.isSubmitting].
  rewrite refreshUser_answered by done. rewrite Hstatus. cbn.
  f_equal. list_eq.
Qed.

Lemma profile_update_refreshes_user_witness :
  is_Some (user (auth signed_in))
  ∧ isSubmitting signed_in = false
  ∧ any_name (Form.mkUpdate "Alice B." "Writer") = Some (Form.mkUpdate "Alice B." "Writer")
  ∧ truthy (value <$> jar signed_in !! "accessToken") = true
  ∧ status (mkBody true alice) = true
  ∧ submit any_name (Form.mkUpdate "Alice B." "Writer")
      (Resolve (A:=unit) None) (Resolve (Some (mkBody true alice))) signed_in
    = mkPageWorld (jar signed_in)
        (log signed_in
         ++ [PutUsersMe (Form.mkUpdate "Alice B." "Writer");
             Shared (EvToast "Profile updated!"
                       "Your profile has been updated successfully.");
             GetUsersMe;
             Shared (EvSetUser (Some alice));
             Shared (EvSetIsLoading false)])
        (mkAuth (Some alice) false)
        false.
Proof.
  split; [by eexists|]. split; [reflexivity|]. split; [reflexivity|].
  split; [reflexivity|]. split; [reflexivity|].
  apply (profile_update_refreshes_user any_name (Form.mkUpdate "Alice B." "Writer")
           (Form.mkUpdate "Alice B." "Writer") None (mkBody true alice) signed_in);
    [by eexists | reflexivity..].
Defined.

(** A profile update the server rejects: after the [PUT] one error
    toast is shown (the server's message when it is a non-empty string,
    ["Something went wrong."] otherwise); no refresh is requested, and
    User and the cookies are as before. *)
Theorem profile_update_failure
    (updateProfileSchema : UpdateProfileFormData → option UpdateProfileFormData)
    typed (d : UpdateProfileFormData) e refreshed pw :
  is_Some (user (auth pw)) →
  isSubmitting pw = false →
  updateProfileSchema typed = Some d →
  submit updateProfileSchema typed (Reject (A:=unit) e) refreshed pw
  = mkPageWorld (jar pw)
      (log pw
       ++ [PutUsersMe d;
           Shared (EvToast "Update failed" (CreateContent.error_description e))])
      (auth pw)
      (isSubmitting pw).
Proof.
  intros [u Huser] Hidle Hparse.
  unfold submit, mutate, onError, toast, record.
  rewrite Huser, Hidle, Hparse. cbn.
  rewrite <- (assoc_L (++)). cbn.
  unfold CreateContent.error_description.
  by destruct (response_message e) as [[|c m]|].
Qed.

Lemma profile_update_failure_witness :
  is_Some (user (auth signed_in))
  ∧ isSubmitting signed_in = false
  ∧ any_name (Form.mkUpdate "Alice B." "Writer") = Some (Form.mkUpdate "Alice B." "Writer")
  ∧ submit any_name (Form.mkUpdate "Alice B." "Writer")
      (Reject (A:=unit) (AxiosError (Some "Name too long")))
      (Resolve (Some (mkBody true alice))) signed_in
    = mkPageWorld (jar signed_in)
        (log signed_in
         ++ [PutUsersMe (Form.mkUpdate "Alice B." "Writer");
             Shared (EvToast "Update failed" "Name too long")])
        (auth signed_in)
        (isSubmitting signed_in).
Proof.
  split; [by eexists|]. split; [reflexivity|]. split; [reflexivity|].
  apply (profile_update_failure any_name (Form.mkUpdate "Alice B." "Writer")
           (Form.mkUpdate "Alice B." "Writer") (AxiosError (Some "Name too long"))
           (Resolve (Some (mkBody true alice))) signed_in);
    [by eexists | reflexivity..].
Defined.

(** Submitting the profile form never signs the user out of the page:
    however the update and the refresh settle, User is present
    afterwards if it was present before, and it is then either the User
    as before or the data of a truthy refresh answer that followed a
    resolved update. *)
Theorem profile_submit_keeps_user
    (updateProfileSchema : UpdateProfileFormData → option UpdateProfileFormData)
    {A} typed (updated : Reply A) refreshed pw :
  user (auth (submit updateProfileSchema typed updated refreshed pw))
  = user (auth pw)
  ∨ ∃ body b,
      updated = Resolve body
      ∧ refreshed = Resolve (Some b)
      ∧ status b = true
      ∧ user (auth (submit updateProfileSchema typed updated refreshed pw))
        = Some (data b).
Proof.
  unfold submit.
  destruct (user (auth pw)) as [u|] eqn:Huser; [|by left; rewrite Huser].
  destruct (isSubmitting pw); [by left|].
  destruct (updateProfileSchema typed) as [d|]; [|by left].
  unfold mutate, onSuccess, onError, toast, record, in_context.
  destruct updated as [body|e]; cbn [auth jar log]; [|by left].
  rewrite refreshUser_cases. cbn [snd cookies state].
  destruct (truthy _); [|by left].
  destruct refreshed as [[b|]|e]; cbn; try by left.
  destruct (status b) eqn:Hok; [|by left].
  right. by exists body, b.
Qed.

End ProfilePage.
